(** * lutrainit: the service supervisor and the service-file parser

    A shallow embedding of the supervision engine of lutrainit
    (StartServices, Start, StartSimple, the liveness probe,
    CheckAndStartService, CheckAndStopService, ExecShutdown) and of the
    service-file parser (parseLine, ParseConfig), with the properties of
    the written specification stated over it.

    Conventions.
    - Go strings are byte strings: [string] (a list of 8-bit [ascii]).
      [int] has 64 bits.
    - A Go [error] value is an [option error]; [None] is [nil].
    - A [*Service] is an [option loc]: [None] is the nil pointer, and the
      records live in a heap.  A nil dereference is the result [Panic].
    - [RunState] and [LastAction] are uint8 in the source; the model has
      the named constants only, the values the program assigns.
    - The operating system (processes, files, the process table) is an
      oracle, part of [Env]; the wall clock is a field of the world and
      advances by the durations the oracle reports and by [time.Sleep].
    - What a function does to the outside is appended to a trace.
      Log output (clog, log, fmt.Printf) is not part of the model.
    - A function of the model is the code of one goroutine.  The other
      launcher goroutines of StartServices enter through [others], the
      tags they have marked by a given time; the lock of the shared map is
      not modelled, a read or a write of the map is one step.
      [go s.StartSimple()] records the new goroutine in [spawned]. *)

From Stdlib Require Import ZArith String Ascii List Lia DecimalString.
From Stdlib Require Import DecimalPos.
From stdpp Require Import gmap strings.

Local Open Scope string_scope.
Local Open Scope Z_scope.
Local Open Scope list_scope.

(** ** The Go library functions the program calls *)

Module Go.

(** [error] values, by the distinctions the program makes: the message
    ([Error]), the dynamic type [*exec.ExitError], [io.EOF], and
    [os.IsNotExist]. *)
Inductive error :=
| ErrorString (msg : string)                (* fmt.Errorf *)
| ExitError (msg : string)                  (* *exec.ExitError: the command ran and exited unsuccessfully *)
| OSError (msg : string) (notExist : bool)  (* any other error of os, os/exec, syscall, io *)
| EOF.                                      (* io.EOF *)

Definition Error (e : error) : string :=
  match e with
  | ErrorString m => m
  | ExitError m => m
  | OSError m _ => m
  | EOF => "EOF"
  end.

Definition IsNotExist (e : option error) : bool :=
  match e with
  | Some (OSError _ b) => b
  | _ => false
  end.

Definition isExitError (e : option error) : bool :=
  match e with
  | Some (ExitError _) => true
  | _ => false
  end.

(** fmt's [%d] of an int. *)
Definition itoa (n : Z) : string := NilEmpty.string_of_int (Z.to_int n).

(** strings.HasPrefix and strings.TrimPrefix. *)
Definition HasPrefix (s p : string) : bool := String.prefix p s.

Definition TrimPrefix (s p : string) : string :=
  if HasPrefix s p
  then substring (String.length p) (String.length s - String.length p) s
  else s.

(** strings.Split with a one-byte separator: the pieces between the
    separators, [n + 1] pieces for [n] separators. *)
Fixpoint splitOn (sep : ascii) (s cur : string) : list string :=
  match s with
  | "" => [cur]
  | String c r =>
      if Ascii.eqb c sep then cur :: splitOn sep r ""
      else splitOn sep r (cur +:+ String c "")
  end.

Definition Split (s : string) (sep : ascii) : list string := splitOn sep s "".

(** strings.TrimSpace and bytes.TrimSpace remove the leading and the
    trailing white space runes (unicode.IsSpace) of the UTF-8 string.  The
    white space runes and their encodings:
    U+0009..U+000D and U+0020 (one byte), U+0085 = C2 85, U+00A0 = C2 A0,
    U+1680 = E1 9A 80, U+2000..U+200A = E2 80 80..8A, U+2028 = E2 80 A8,
    U+2029 = E2 80 A9, U+202F = E2 80 AF, U+205F = E2 81 9F,
    U+3000 = E3 80 80. *)
Definition asciiSpace (c : N) : bool :=
  ((9 <=? c) && (c <=? 13) || (c =? 32))%N.

Definition space2 (a b : N) : bool :=
  ((a =? 194) && ((b =? 133) || (b =? 160)))%N.

Definition space3 (a b c : N) : bool :=
  ((a =? 225) && (b =? 154) && (c =? 128)
   || (a =? 226) && (b =? 128)
      && ((128 <=? c) && (c <=? 138) || (c =? 168) || (c =? 169) || (c =? 175))
   || (a =? 226) && (b =? 129) && (c =? 159)
   || (a =? 227) && (b =? 128) && (c =? 128))%N.

(** The bytes after a leading white space rune, if there is one. *)
Definition dropSpaceRune (l : list N) : option (list N) :=
  match l with
  | a :: r1 =>
      if asciiSpace a then Some r1 else
      match r1 with
      | b :: r2 =>
          if space2 a b then Some r2 else
          match r2 with
          | c :: r3 => if space3 a b c then Some r3 else None
          | [] => None
          end
      | [] => None
      end
  | [] => None
  end.

(** The same from the end, on the reversed bytes (utf8.DecodeLastRune
    finds the lead byte of the last rune by walking back over the
    continuation bytes). *)
Definition dropLastSpaceRune (l : list N) : option (list N) :=
  match l with
  | a :: r1 =>
      if asciiSpace a then Some r1 else
      match r1 with
      | b :: r2 =>
          if space2 b a then Some r2 else
          match r2 with
          | c :: r3 => if space3 c b a then Some r3 else None
          | [] => None
          end
      | [] => None
      end
  | [] => None
  end.

Fixpoint trimWith (drop : list N -> option (list N)) (n : nat) (l : list N) : list N :=
  match n with
  | O => l
  | S n' =>
      match drop l with
      | Some r => trimWith drop n' r
      | None => l
      end
  end.

Definition bytes (s : string) : list N := map N_of_ascii (list_ascii_of_string s).
Definition unbytes (l : list N) : string := string_of_list_ascii (map ascii_of_N l).

Definition TrimSpace (s : string) : string :=
  let l := trimWith dropSpaceRune (String.length s) (bytes s) in
  unbytes (rev (trimWith dropLastSpaceRune (length l) (rev l))).

(** strconv.Atoi with a 64-bit int: an optional sign, then one or more
    decimal digits, the value in the range of int; [None] is the error
    result (syntax or range). *)
Definition digit (c : ascii) : option Z :=
  let n := Z.of_N (N_of_ascii c) in
  if (48 <=? n) && (n <=? 57) then Some (n - 48) else None.

Fixpoint parseDigits (s : string) (acc : Z) : option Z :=
  match s with
  | "" => Some acc
  | String c r =>
      match digit c with
      | Some d => parseDigits r (acc * 10 + d)
      | None => None
      end
  end.

Definition Atoi (s : string) : option Z :=
  match s with
  | "" => None
  | String c r =>
      let neg := Ascii.eqb c "-" in
      let body := if neg || Ascii.eqb c "+" then r else s in
      match body with
      | "" => None
      | _ =>
          match parseDigits body 0 with
          | None => None
          | Some n =>
              let v := if neg then - n else n in
              if (- 2 ^ 63 <=? v) && (v <=? 2 ^ 63 - 1) then Some v else None
          end
      end
  end.

End Go.

Import Go.

(** ** The data model (part_000) *)

Abbreviation ServiceName := string (only parsing).
Abbreviation ServiceType := string (only parsing).
Abbreviation Command := string (only parsing).

(** Types of valid runState *)
Inductive RunState := NotStarted | Starting | Started | Stopped | Errored.

Definition RunState_String (rs : RunState) : string :=
  match rs with
  | NotStarted => "not started"
  | Starting => "being started"
  | Started => "already started"
  | Stopped => "stopped"
  | Errored => "errored"
  end.

Definition RunState_eqb (a b : RunState) : bool :=
  match a, b with
  | NotStarted, NotStarted | Starting, Starting | Started, Started
  | Stopped, Stopped | Errored, Errored => true
  | _, _ => false
  end.

(** LastAction represent the latest action done to the service (the type
    is [LastActionT] here: the field of Service has the name). *)
Inductive LastActionT := Unknown | Start | Stop | Reload | Restart | Forcekill.

Definition LastAction_String (la : LastActionT) : string :=
  match la with
  | Unknown => "unknown"
  | Start => "start"
  | Stop => "stop"
  | Reload => "reload"
  | Restart => "restart"
  | Forcekill => "force kill"
  end.

(** Service represents a struct with usefull infos used for management of
    services ([Type_] is the field Type). *)
Record Service := mkService {
  Name : ServiceName;
  AutoStart : bool;
  Provides : list ServiceType;
  Needs : list ServiceType;
  Description : string;
  State : RunState;
  LastAction : LastActionT;
  LastActionAt : Z;
  LastMessage : string;
  LastKnownPID : Z;
  Type_ : string;
  PIDFile : string;
  Startup : Command;
  Shutdown : Command;
  CheckAlive : Command;
  Deleted : bool
}.

(** [Service{}], the zero value. *)
Definition zeroService : Service :=
  mkService "" false [] [] "" NotStarted Unknown 0 "" 0 "" "" "" "" "" false.

Definition set_State (v : RunState) (s : Service) : Service :=
  mkService (Name s) (AutoStart s) (Provides s) (Needs s) (Description s) v
    (LastAction s) (LastActionAt s) (LastMessage s) (LastKnownPID s) (Type_ s)
    (PIDFile s) (Startup s) (Shutdown s) (CheckAlive s) (Deleted s).
Definition set_LastAction (v : LastActionT) (s : Service) : Service :=
  mkService (Name s) (AutoStart s) (Provides s) (Needs s) (Description s) (State s)
    v (LastActionAt s) (LastMessage s) (LastKnownPID s) (Type_ s)
    (PIDFile s) (Startup s) (Shutdown s) (CheckAlive s) (Deleted s).
Definition set_LastActionAt (v : Z) (s : Service) : Service :=
  mkService (Name s) (AutoStart s) (Provides s) (Needs s) (Description s) (State s)
    (LastAction s) v (LastMessage s) (LastKnownPID s) (Type_ s)
    (PIDFile s) (Startup s) (Shutdown s) (CheckAlive s) (Deleted s).
Definition set_LastMessage (v : string) (s : Service) : Service :=
  mkService (Name s) (AutoStart s) (Provides s) (Needs s) (Description s) (State s)
    (LastAction s) (LastActionAt s) v (LastKnownPID s) (Type_ s)
    (PIDFile s) (Startup s) (Shutdown s) (CheckAlive s) (Deleted s).
Definition set_LastKnownPID (v : Z) (s : Service) : Service :=
  mkService (Name s) (AutoStart s) (Provides s) (Needs s) (Description s) (State s)
    (LastAction s) (LastActionAt s) (LastMessage s) v (Type_ s)
    (PIDFile s) (Startup s) (Shutdown s) (CheckAlive s) (Deleted s).
Definition set_Name (v : ServiceName) (s : Service) : Service :=
  mkService v (AutoStart s) (Provides s) (Needs s) (Description s) (State s)
    (LastAction s) (LastActionAt s) (LastMessage s) (LastKnownPID s) (Type_ s)
    (PIDFile s) (Startup s) (Shutdown s) (CheckAlive s) (Deleted s).
Definition set_Provides (v : list ServiceType) (s : Service) : Service :=
  mkService (Name s) (AutoStart s) v (Needs s) (Description s) (State s)
    (LastAction s) (LastActionAt s) (LastMessage s) (LastKnownPID s) (Type_ s)
    (PIDFile s) (Startup s) (Shutdown s) (CheckAlive s) (Deleted s).
Definition set_Needs (v : list ServiceType) (s : Service) : Service :=
  mkService (Name s) (AutoStart s) (Provides s) v (Description s) (State s)
    (LastAction s) (LastActionAt s) (LastMessage s) (LastKnownPID s) (Type_ s)
    (PIDFile s) (Startup s) (Shutdown s) (CheckAlive s) (Deleted s).
Definition set_Description (v : string) (s : Service) : Service :=
  mkService (Name s) (AutoStart s) (Provides s) (Needs s) v (State s)
    (LastAction s) (LastActionAt s) (LastMessage s) (LastKnownPID s) (Type_ s)
    (PIDFile s) (Startup s) (Shutdown s) (CheckAlive s) (Deleted s).
Definition set_Type (v : string) (s : Service) : Service :=
  mkService (Name s) (AutoStart s) (Provides s) (Needs s) (Description s) (State s)
    (LastAction s) (LastActionAt s) (LastMessage s) (LastKnownPID s) v
    (PIDFile s) (Startup s) (Shutdown s) (CheckAlive s) (Deleted s).
Definition set_PIDFile (v : string) (s : Service) : Service :=
  mkService (Name s) (AutoStart s) (Provides s) (Needs s) (Description s) (State s)
    (LastAction s) (LastActionAt s) (LastMessage s) (LastKnownPID s) (Type_ s)
    v (Startup s) (Shutdown s) (CheckAlive s) (Deleted s).
Definition set_Startup (v : Command) (s : Service) : Service :=
  mkService (Name s) (AutoStart s) (Provides s) (Needs s) (Description s) (State s)
    (LastAction s) (LastActionAt s) (LastMessage s) (LastKnownPID s) (Type_ s)
    (PIDFile s) v (Shutdown s) (CheckAlive s) (Deleted s).
Definition set_Shutdown (v : Command) (s : Service) : Service :=
  mkService (Name s) (AutoStart s) (Provides s) (Needs s) (Description s) (State s)
    (LastAction s) (LastActionAt s) (LastMessage s) (LastKnownPID s) (Type_ s)
    (PIDFile s) (Startup s) v (CheckAlive s) (Deleted s).

Definition errWaitNoChild : string := "wait: no child processes".
Definition errWaitIDNoChild : string := "waitid: no child processes".

(** ** The world the supervisor runs in *)

(** Addresses of [Service] records; a [*Service] is [None] when nil. *)
Abbreviation loc := nat (only parsing).
Abbreviation ptr := (option nat) (only parsing).

(** What the operating system and the other goroutines answer.  Every
    answer may depend on the time of the call.  [os_run] is
    [exec.Command("sh", "-c", cmd).Run()] (with the Setpgid attribute when
    the flag is set): the error and the time the call took.  [os_start] is
    [cmd.Start()]: the error and the pid of the new process.  [os_wait] is
    [cmd.Wait()] on that process.  [others t] are the capability tags the
    other launcher goroutines have put in the shared map by time [t]. *)
Record Env := mkEnv {
  os_run : Command -> bool -> Z -> option error * Z;
  os_start : Command -> Z -> option error * Z;
  os_wait : Z -> Z -> option error * Z;
  os_stat : string -> Z -> option error;
  os_readFile : string -> Z -> string * option error;
  os_findProcess : Z -> Z -> option error;
  others : Z -> gmap string bool
}.

Inductive Event :=
| EvRun (cmd : Command) (setpgid : bool)
| EvStartProc (cmd : Command)
| EvWait (pid : Z)
| EvStat (path : string)
| EvReadFile (path : string)
| EvFindProcess (pid : Z)
| EvSleep (seconds : Z)
| EvPoll
| EvMark (t : ServiceType).

(** [LoadedServices] is the registry [map[ServiceName]*Service];
    [startedTypes] is the map of StartServices that its goroutines share;
    [spawned] are the receivers of the [go s.StartSimple()] statements
    executed so far. *)
Record World := mkWorld {
  heap : gmap loc Service;
  LoadedServices : gmap ServiceName loc;
  startedTypes : gmap ServiceType bool;
  clock : Z;
  trace : list Event;
  spawned : list Service
}.

Definition with_heap (h : gmap loc Service) (w : World) : World :=
  mkWorld h (LoadedServices w) (startedTypes w) (clock w) (trace w) (spawned w).
Definition with_started (m : gmap ServiceType bool) (w : World) : World :=
  mkWorld (heap w) (LoadedServices w) m (clock w) (trace w) (spawned w).
Definition with_clock (t : Z) (w : World) : World :=
  mkWorld (heap w) (LoadedServices w) (startedTypes w) t (trace w) (spawned w).
Definition with_trace (tr : list Event) (w : World) : World :=
  mkWorld (heap w) (LoadedServices w) (startedTypes w) (clock w) tr (spawned w).
Definition with_spawned (l : list Service) (w : World) : World :=
  mkWorld (heap w) (LoadedServices w) (startedTypes w) (clock w) (trace w) l.

(** A computation either returns a value and the next world or panics
    (nil pointer dereference). *)
Inductive Res (A : Type) :=
| Ok (a : A) (w : World)
| Panic.
Arguments Ok {A} a w.
Arguments Panic {A}.

Definition M (A : Type) : Type := World -> Res A.

Definition ret {A} (a : A) : M A := fun w => Ok a w.

Definition bind {A B} (c : M A) (k : A -> M B) : M B :=
  fun w => match c w with
           | Ok a w' => k a w'
           | Panic => Panic
           end.

Declare Scope go_scope.
Delimit Scope go_scope with go.
Notation "x <- c ;; k" := (bind c (fun x => k))
  (at level 100, c at next level, right associativity) : go_scope.
Notation "c ;; k" := (bind c (fun _ => k))
  (at level 100, right associativity) : go_scope.
Local Open Scope go_scope.

Definition emit (e : Event) : M unit :=
  fun w => Ok tt (with_trace (trace w ++ [e]) w).

Definition elapse (d : Z) : M unit :=
  fun w => Ok tt (with_clock (clock w + d) w).

(** time.Now().UTC().Unix() *)
Definition now : M Z := fun w => Ok (clock w) w.

(** [*p] *)
Definition deref (p : ptr) : M Service :=
  fun w => match p with
           | Some l => match heap w !! l with
                       | Some s => Ok s w
                       | None => Panic
                       end
           | None => Panic
           end.

(** [LoadedServices[name]] *)
Definition loaded (name : ServiceName) : M ptr :=
  fun w => Ok (LoadedServices w !! name) w.

(** [p.field = v], as the update [f] of the record *)
Definition store (p : ptr) (f : Service -> Service) : M unit :=
  fun w => match p with
           | Some l => match heap w !! l with
                       | Some s => Ok tt (with_heap (<[l := f s]> (heap w)) w)
                       | None => Panic
                       end
           | None => Panic
           end.

(** [LoadedServices[name].field = v] *)
Definition setLoaded (name : ServiceName) (f : Service -> Service) : M unit :=
  p <- loaded name ;; store p f.

Section Supervisor.

Variable env : Env.

Definition run (cmd : Command) (setpgid : bool) : M (option error) :=
  emit (EvRun cmd setpgid) ;;
  t <- now ;;
  let '(err, d) := os_run env cmd setpgid t in
  elapse d ;; ret err.

Definition startProc (cmd : Command) : M (option error * Z) :=
  emit (EvStartProc cmd) ;;
  t <- now ;;
  ret (os_start env cmd t).

Definition waitProc (pid : Z) : M (option error) :=
  emit (EvWait pid) ;;
  t <- now ;;
  let '(err, d) := os_wait env pid t in
  elapse d ;; ret err.

Definition stat (path : string) : M (option error) :=
  emit (EvStat path) ;; t <- now ;; ret (os_stat env path t).

Definition readFile (path : string) : M (string * option error) :=
  emit (EvReadFile path) ;; t <- now ;; ret (os_readFile env path t).

Definition findProcess (pid : Z) : M (option error) :=
  emit (EvFindProcess pid) ;; t <- now ;; ret (os_findProcess env pid t).

Definition sleep (seconds : Z) : M unit :=
  emit (EvSleep seconds) ;; elapse seconds.

(** The shared map as a reader sees it at time [t]: the tags of this
    world and those of the other goroutines. *)
Definition visible (w : World) (t : Z) : gmap string bool :=
  startedTypes w ∪ others env t.

(** [started[st]]: false when the key is absent. *)
Definition index (started : gmap string bool) (st : ServiceType) : bool :=
  default false (started !! st).

(** NeedsSatisfied: all of s's needs are in the map of started types. *)
Fixpoint needsLoop (needs : list ServiceType) (started : gmap string bool) : bool :=
  match needs with
  | [] => true
  | st :: rest => if negb (index started st) then false else needsLoop rest started
  end.

Definition Service_NeedsSatisfied (s : Service) (started : gmap string bool) : bool :=
  needsLoop (Needs s) started.

(** Start the Service s, if type is oneshot or forking. *)
Definition Service_Start (s : Service) : M (option error) :=
  if negb (RunState_eqb (State s) NotStarted) then
    ret (Some (ErrorString ("Service " +:+ Name s +:+ " is " +:+ RunState_String (State s))))
  else
    let s := set_State Starting s in
    setLoaded (Name s) (set_State Starting) ;;
    t <- now ;;
    setLoaded (Name s) (set_LastActionAt t) ;;
    setLoaded (Name s) (set_LastAction Start) ;;
    err <- run (Startup s) true ;;
    match err with
    | Some e =>
        if String.eqb (Error e) errWaitNoChild || String.eqb (Error e) errWaitIDNoChild then
          let s := set_State Started s in
          setLoaded (Name s) (set_State Started) ;;
          t <- now ;;
          setLoaded (Name s) (set_LastActionAt t) ;;
          setLoaded (Name s) (set_LastAction Start) ;;
          ret None
        else
          let s := set_State Errored s in
          setLoaded (Name s) (set_State Errored) ;;
          t <- now ;;
          setLoaded (Name s) (set_LastActionAt t) ;;
          setLoaded (Name s) (set_LastAction Start) ;;
          ret (Some e)
    | None =>
        let s := set_State Started s in
        setLoaded (Name s) (set_State Started) ;;
        t <- now ;;
        setLoaded (Name s) (set_LastActionAt t) ;;
        setLoaded (Name s) (set_LastAction Start) ;;
        ret None
    end.

(** StartSimple and track the PID and process state. *)
Definition Service_StartSimple (s : Service) : M unit :=
  let s := set_State Starting s in
  setLoaded (Name s) (set_State Starting) ;;
  t <- now ;;
  setLoaded (Name s) (set_LastActionAt t) ;;
  setLoaded (Name s) (set_LastAction Start) ;;
  setLoaded (Name s) (set_LastKnownPID 0) ;;
  r <- startProc (Startup s) ;;
  let '(err, pid) := r in
  match err with
  | Some e =>
      let s := set_State Errored s in
      setLoaded (Name s) (set_State Errored) ;;
      setLoaded (Name s) (set_LastMessage (Error e)) ;;
      setLoaded (Name s) (set_LastKnownPID 0)
  | None =>
      let s := set_State Started s in
      setLoaded (Name s) (set_State Started) ;;
      setLoaded (Name s) (set_LastKnownPID pid) ;;
      err <- waitProc pid ;;
      match err with
      | Some e =>
          let s := set_State Stopped s in
          setLoaded (Name s) (set_State Stopped) ;;
          setLoaded (Name s) (set_LastMessage (Error e)) ;;
          setLoaded (Name s) (set_LastKnownPID 0)
      | None =>
          let s := set_State Stopped s in
          setLoaded (Name s) (set_State Stopped) ;;
          setLoaded (Name s) (set_LastKnownPID 0) ;;
          t <- now ;;
          setLoaded (Name s) (set_LastActionAt t) ;;
          setLoaded (Name s) (set_LastAction Stop)
      end
  end.

End Supervisor.

Section Probe.

Variable env : Env.

Definition getProcessPid (s : ptr) : M (Z * option error) :=
  sv <- deref s ;;
  r <- readFile env (PIDFile sv) ;;
  let '(d, err) := r in
  match err with
  | Some e => ret (0, Some e)
  | None =>
      match Atoi (TrimSpace d) with
      | None =>
          sv <- deref s ;;
          ret (0, Some (ErrorString ("error parsing pid from: " +:+ PIDFile sv)))
      | Some pid => ret (pid, None)
      end
  end.

Definition processAliveByPid (pid : Z) : M (bool * option error) :=
  if pid =? 0 then
    ret (false, Some (ErrorString "why are you asking me if PID 0 is alive ?"))
  else
    err <- findProcess env pid ;;
    match err with
    | Some e => ret (false, Some e)
    | None => ret (true, None)
    end.

(** returns true if command successfull, else always false *)
Definition processAliveByCmd (command : string) : M (bool * option error) :=
  err <- run env command false ;;
  match err with
  | Some e => ret (false, Some e)
  | None =>
      (* did the command fail because of an unsuccessful exit code *)
      if isExitError err then ret (false, None)
      else ret (true, None)
  end.

(** ExecShutdown of the specified service *)
Definition ExecShutdown (command : string) : M (option error) :=
  err <- run env command false ;;
  match err with
  | Some e => ret (Some e)
  | None =>
      (* did the command fail because of an unsuccessful exit code *)
      if isExitError err then ret None
      else ret None
  end.

Definition checkIfProcessAlive (s : ptr) : M (bool * Z * option error) :=
  sv <- deref s ;;
  (* Check using PID *)
  if negb (String.eqb (PIDFile sv) "") then
    e <- stat env (PIDFile sv) ;;
    if IsNotExist e then ret (false, 0, None) (* NO PID *)
    else
      r <- getProcessPid s ;;
      let '(pid, err) := r in
      match err with
      | Some e => ret (false, 0, Some e)
      | None =>
          r <- processAliveByPid pid ;;
          let '(running, err) := r in
          match err with
          | Some e => ret (false, 0, Some e)
          | None => ret (running, pid, None)
          end
      end
  (* Check using CheckAlive *)
  else if negb (String.eqb (CheckAlive sv) "") then
    r <- processAliveByCmd (CheckAlive sv) ;;
    let '(running, err) := r in
    match err with
    | Some e => ret (false, 0, Some e)
    | None => ret (running, 0, None)
    end
  (* Else if it's a simple, check status from list *)
  else if String.eqb (Type_ sv) "simple" then
    ret (RunState_eqb (State sv) Started, 0, None)
  (* Cannot determine process state *)
  else ret (true, 0, Some (ErrorString "cannot determine process state")).

(** [go s.StartSimple()]: the receiver is copied when the statement runs;
    the new goroutine is recorded, not run. *)
Definition goStartSimple (s : ptr) : M unit :=
  sv <- deref s ;;
  fun w => Ok tt (with_spawned (spawned w ++ [sv]) w).

Definition CheckAndStartService (s : ptr) : M (option error) :=
  r <- checkIfProcessAlive s ;;
  let '(alive, pid, err) := r in
  match err with
  | Some e => ret (Some e)
  | None =>
      if alive && negb (pid =? 0) then
        sv <- deref s ;;
        ret (Some (ErrorString ("process " +:+ Name sv +:+ " already running as PID " +:+ itoa pid)))
      else if alive then
        sv <- deref s ;;
        ret (Some (ErrorString ("process " +:+ Name sv +:+ " already running")))
      else
        (* start service *)
        sv <- deref s ;;
        (if String.eqb (Type_ sv) "simple" then goStartSimple s
         else (sv <- deref s ;; Service_Start env sv ;; ret tt)) ;;
        ret None
  end.

Definition CheckAndStopService (s : ptr) : M (option error) :=
  (* Well, we don't really care if process is running, yeah ? *)
  sv <- deref s ;;
  t <- now ;;
  setLoaded (Name sv) (set_LastActionAt t) ;;
  sv <- deref s ;;
  setLoaded (Name sv) (set_LastAction Stop) ;;
  (* If simple check struct status *)
  sv <- deref s ;;
  if String.eqb (Type_ sv) "simple" then
    if RunState_eqb (State sv) Starting || RunState_eqb (State sv) Started then
      (* kill process according to cmd Shutdown *)
      err <- (if negb (String.eqb (Shutdown sv) "")
              then ExecShutdown (Shutdown sv)
              else ExecShutdown ("pkill " +:+ itoa (LastKnownPID sv))) ;;
      match err with
      | Some e =>
          sv <- deref s ;;
          setLoaded (Name sv) (set_State Errored) ;;
          ret err
      | None =>
          sv <- deref s ;;
          setLoaded (Name sv) (set_State Stopped) ;;
          ret err
      end
    else
      sv <- deref s ;;
      setLoaded (Name sv) (set_State Stopped) ;;
      sv <- deref s ;;
      ret (Some (ErrorString ("process " +:+ Name sv +:+ " doesn't seems to be alive ?")))
  else
    err <- (if negb (String.eqb (Shutdown sv) "")
            then ExecShutdown (Shutdown sv)
            else ret (Some (ErrorString ("no Shutdown: command defined for " +:+ Name sv
                                         +:+ ", I don't know how to kill it")))) ;;
    match err with
    | Some e =>
        sv <- deref s ;;
        setLoaded (Name sv) (set_State Errored) ;;
        ret err
    | None =>
        sv <- deref s ;;
        setLoaded (Name sv) (set_State Stopped) ;;
        ret err
    end.

End Probe.

(** ** The dependency-gated launcher (StartServices) *)

Section Launcher.

Variable env : Env.

(** [satisfied = s.NeedsSatisfied(startedTypes, startedMu)]: the map is
    read under the read lock, as it is at the time of the call. *)
Definition poll (s : ptr) : M bool :=
  sv <- deref s ;;
  emit EvPoll ;;
  fun w => Ok (Service_NeedsSatisfied sv (visible env w (clock w))) w.

(** The wait loop
    [for satisfied, tries := false, 0; satisfied == false && tries < 60; tries++].
    [fuel] bounds the iterations of the model; StartServices gives 60, and
    [waitNeeds_fuel] shows that no run uses it up. *)
Fixpoint waitNeeds (fuel : nat) (s : ptr) (satisfied : bool) (tries : nat) : M (bool * nat) :=
  match fuel with
  | O => ret (satisfied, tries)
  | S fuel' =>
      if Bool.eqb satisfied false && (tries <? 60)%nat then
        satisfied <- poll s ;;
        sleep 2 ;;
        waitNeeds fuel' s satisfied (S tries)
      else ret (satisfied, tries)
  end.

(** [startedTypes[t] = true] *)
Definition mark (t : ServiceType) : M unit :=
  fun w => Ok tt (with_trace (trace w ++ [EvMark t])
                    (with_started (<[t := true]> (startedTypes w)) w)).

Fixpoint markProvides (ts : list ServiceType) : M unit :=
  match ts with
  | [] => ret tt
  | t :: rest => mark t ;; markProvides rest
  end.

(** The start step of the goroutine. *)
Definition startStep (s : ptr) : M unit :=
  sv <- deref s ;;
  if RunState_eqb (State sv) NotStarted && AutoStart sv then
    (* Start the service *)
    if String.eqb (Type_ sv) "oneshot" || String.eqb (Type_ sv) "forking" then
      Service_Start env sv ;; ret tt
    else if String.eqb (Type_ sv) "simple" then
      goStartSimple s
    else
      (* What are you doing here ? *)
      ret tt
  else ret tt.

(** The goroutine StartServices starts for one entry of StartupServices. *)
Definition launcher (s : ptr) : M unit :=
  waitNeeds 60 s false 0 ;;
  startStep s ;;
  sv <- deref s ;;
  markProvides (Provides sv).

(** The loops of StartServices over StartupServices, the index
    [map[ServiceType][]*Service] that ParseServiceConfigs fills: of an
    entry, the name is read, and the goroutine gets the registry record
    of that name. *)
Fixpoint launchAll (services : list Service) : M unit :=
  match services with
  | [] => ret tt
  | s :: rest =>
      lS <- loaded (Name s) ;;
      launcher lS ;;
      launchAll rest
  end.

Fixpoint launchEach (entries : list (ServiceType * list Service)) : M unit :=
  match entries with
  | [] => ret tt
  | (_, services) :: rest => launchAll services ;; launchEach rest
  end.

(** StartServices under the schedule that runs the goroutines one after
    the other, in the order they are started ([wg.Wait] then returns at
    once).  Go leaves the order of a map iteration open; the model takes
    the order of [map_to_list]. *)
Definition StartServices (StartupServices : gmap string (list Service)) : M unit :=
  launchEach (map_to_list StartupServices).

End Launcher.

(** ** The service-file parser (part_001) *)

Definition parseLine (line : string) (s : Service) : Service * option error :=
  if HasPrefix line "Needs:" then
    let specified := Split (TrimPrefix line "Needs:") "," in
    (set_Needs (Needs s ++ map TrimSpace specified) s, None)
  else if HasPrefix line "Provides:" then
    let specified := Split (TrimPrefix line "Provides:") "," in
    (set_Provides (Provides s ++ map TrimSpace specified) s, None)
  else if HasPrefix line "Startup:" then
    if negb (String.eqb (Startup s) "") then (s, Some (ErrorString "Startup already set"))
    else (set_Startup (TrimSpace (TrimPrefix line "Startup:")) s, None)
  else if HasPrefix line "Shutdown:" then
    if negb (String.eqb (Shutdown s) "") then (s, Some (ErrorString "Shutdown already set"))
    else (set_Shutdown (TrimSpace (TrimPrefix line "Shutdown:")) s, None)
  else if HasPrefix line "Name:" then
    if String.eqb (Name s) "" then (set_Name (TrimSpace (TrimPrefix line "Name:")) s, None)
    else (s, None)
  else if HasPrefix line "Description:" then
    if String.eqb (Description s) ""
    then (set_Description (TrimSpace (TrimPrefix line "Description:")) s, None)
    else (s, None)
  else if HasPrefix line "PIDFile:" then
    if String.eqb (PIDFile s) "" then (set_PIDFile (TrimSpace (TrimPrefix line "PIDFile:")) s, None)
    else (s, None)
  else if HasPrefix line "Type:" then
    if String.eqb (Type_ s) "" then
      let serviceType := TrimSpace (TrimPrefix line "Type:") in
      if String.eqb serviceType "simple" then (set_Type "simple" s, None)
      else if String.eqb serviceType "forking" then (set_Type "forking" s, None)
      else if String.eqb serviceType "oneshot" then (set_Type "oneshot" s, None)
      else (set_Type "simple" s, None)
    else (s, None)
  else (s, None).

(** An [io.Reader] behind a [bufio.Reader]: the bytes it still delivers
    and the error it ends with ([io.EOF] or another). *)
Record Reader := mkReader { rd_data : string; rd_err : error }.

Fixpoint readUntil (delim : ascii) (data : string) : option (string * string) :=
  match data with
  | "" => None
  | String c r =>
      if Ascii.eqb c delim then Some (String c "", r)
      else match readUntil delim r with
           | Some (line, rest) => Some (String c line, rest)
           | None => None
           end
  end.

(** [scanner.ReadString(delim)]: the bytes up to and including the
    delimiter; when the reader ends first, what was read and its error. *)
Definition ReadString (rd : Reader) (delim : ascii) : string * option error * Reader :=
  match readUntil delim (rd_data rd) with
  | Some (line, rest) => (line, None, mkReader rest (rd_err rd))
  | None => (rd_data rd, Some (rd_err rd), mkReader "" (rd_err rd))
  end.

Section Parser.

(** [ipc.IsCustASCII] (package shared/ipc) *)
Variable IsCustASCII : string -> bool.

Fixpoint firstInvalid (l : list string) : option string :=
  match l with
  | [] => None
  | x :: r => if negb (IsCustASCII x) then Some x else firstInvalid r
  end.

Definition checkSanity (service : Service) (filename : string) : option error :=
  if negb (IsCustASCII (Name service)) then
    Some (ErrorString (filename +:+ " has invalid service name '" +:+ Name service
                       +:+ "', only a-Z0-9_-. allowed"))
  else
    match firstInvalid (Provides service) with
    | Some provide =>
        Some (ErrorString (filename +:+ " has invalid provides '" +:+ provide
                           +:+ "', only a-Z0-9_-. allowed"))
    | None =>
        match firstInvalid (Needs service) with
        | Some need =>
            Some (ErrorString (filename +:+ " has invalid needs '" +:+ need
                               +:+ "', only a-Z0-9_-. allowed"))
        | None => None
        end
    end.

(** The [for] loop of ParseConfig; [None] when the fuel runs out. *)
Fixpoint ParseConfig_loop (fuel : nat) (scanner : Reader) (s : Service) (filename : string)
  : option (Service * option error) :=
  match fuel with
  | O => None
  | S fuel' =>
      let '(line, err, scanner') := ReadString scanner "010" in
      match err with
      | Some EOF =>
          let s := fst (parseLine line s) in
          (* Check for configuration sanity before returning *)
          match checkSanity s filename with
          | Some e => Some (zeroService, Some e)
          | None => Some (s, None)
          end
      | None => ParseConfig_loop fuel' scanner' (fst (parseLine line s)) filename
      | Some e => Some (zeroService, Some e)
      end
  end.

(** ParseConfig a single config file into the services it provides. *)
Definition ParseConfig (fuel : nat) (r : Reader) (filename : string)
  : option (Service * option error) :=
  ParseConfig_loop fuel r zeroService filename.

End Parser.

(** ParseServiceConfigs, the registration of a parsed service in the
    capability index:
    [for _, t := range s.Provides { StartupServices[t] = append(StartupServices[t], &s) }] *)
Definition register (s : Service) (StartupServices : gmap string (list Service))
  : gmap string (list Service) :=
  fold_left (fun (idx : gmap string (list Service)) t => <[t := (default [] (idx !! t) ++ [s])%list]> idx)
    (Provides s) StartupServices.

(** ** The setup file (part_001) *)

Definition parseSetupLine (line : string) : string * bool :=
  if HasPrefix line "Autologin:" then
    (TrimSpace (TrimPrefix line "Autologin:"), false)
  else if HasPrefix line "Persist:" then
    ("", String.eqb (TrimSpace (TrimPrefix line "Persist:")) "true")
  else ("", false).

(** What both cases of the loop of ParseSetupConfig do with a line. *)
Definition setupStep (line : string) (autologins : list string) (persist : bool)
  : list string * bool :=
  let '(autologin, persist2) := parseSetupLine line in
  let autologins := if negb (String.eqb autologin "") then autologins ++ [autologin]
                    else autologins in
  let persist := if persist2 then persist2 else persist in
  (autologins, persist).

(** The [for] loop of ParseSetupConfig over its named results; [None] when
    the fuel runs out. *)
Fixpoint ParseSetupConfig_loop (fuel : nat) (scanner : Reader)
         (autologins : list string) (persist : bool)
  : option (list string * bool * option error) :=
  match fuel with
  | O => None
  | S fuel' =>
      let '(line, err2, scanner') := ReadString scanner "010" in
      match err2 with
      | Some EOF =>
          let '(autologins, persist) := setupStep line autologins persist in
          Some (autologins, persist, None)
      | None =>
          let '(autologins, persist) := setupStep line autologins persist in
          ParseSetupConfig_loop fuel' scanner' autologins persist
      | Some e => Some (autologins, persist, Some e)
      end
  end.

(** ParseSetupConfig parse the main configuration *)
Definition ParseSetupConfig (fuel : nat) (r : Reader)
  : option (list string * bool * option error) :=
  ParseSetupConfig_loop fuel r [] false.

(** ** Notions the properties are stated with *)

(** The record the registry holds under a name. *)
Definition registryRecord (name : ServiceName) (w : World) : option Service :=
  match LoadedServices w !! name with
  | Some l => heap w !! l
  | None => None
  end.

(** The world after one iteration of the wait loop, and after [n]. *)
Definition pollStep (w : World) : World :=
  with_clock (clock w + 2) (with_trace ((trace w ++ [EvPoll]) ++ [EvSleep 2]) w).

Fixpoint polled (n : nat) (w : World) : World :=
  match n with
  | O => w
  | S n' => polled n' (pollStep w)
  end.

(** What the [i]-th poll (from 0) of a wait loop entered in [w] reads. *)
Definition satAt (env : Env) (sv : Service) (w : World) (i : nat) : bool :=
  Service_NeedsSatisfied sv (visible env w (clock w + 2 * Z.of_nat i)).

(** The events of the liveness probe: it reads, and runs the CheckAlive
    command outside a process group of its own. *)
Definition probeEvent (e : Event) : bool :=
  match e with
  | EvStat _ | EvReadFile _ | EvFindProcess _ | EvRun _ false => true
  | _ => false
  end.

Definition isMark (e : Event) : bool :=
  match e with
  | EvMark _ => true
  | _ => false
  end.

(** The valid service types. *)
Definition validType (t : string) : Prop :=
  t = "simple" \/ t = "forking" \/ t = "oneshot".

(** The [X] of a line [Type: X]. *)
Definition typeOf (line : string) : string := TrimSpace (TrimPrefix line "Type:").

(** The events that are no run of a command. *)
Definition notRun (e : Event) : bool :=
  match e with
  | EvRun _ _ => false
  | _ => true
  end.

(** The command CheckAndStopService runs for a service, if any. *)
Definition stopCommand (sv : Service) : option Command :=
  if String.eqb (Type_ sv) "simple" then
    if RunState_eqb (State sv) Starting || RunState_eqb (State sv) Started then
      if negb (String.eqb (Shutdown sv) "") then Some (Shutdown sv)
      else Some ("pkill " +:+ itoa (LastKnownPID sv))
    else None
  else if negb (String.eqb (Shutdown sv) "") then Some (Shutdown sv)
  else None.

(** What the parser keeps of a service from one line to the next: a Name,
    Description, PIDFile, Type, Startup or Shutdown that is set, the Needs
    and Provides read so far as a prefix, and all the fields the
    supervisor works with. *)
Definition extends (s s' : Service) : Prop :=
  (Name s <> "" -> Name s' = Name s) /\
  (Description s <> "" -> Description s' = Description s) /\
  (PIDFile s <> "" -> PIDFile s' = PIDFile s) /\
  (Type_ s <> "" -> Type_ s' = Type_ s) /\
  (Startup s <> "" -> Startup s' = Startup s) /\
  (Shutdown s <> "" -> Shutdown s' = Shutdown s) /\
  (exists more, Needs s' = Needs s ++ more) /\
  (exists more, Provides s' = Provides s ++ more) /\
  AutoStart s' = AutoStart s /\ State s' = State s /\ LastAction s' = LastAction s /\
  LastActionAt s' = LastActionAt s /\ LastMessage s' = LastMessage s /\
  LastKnownPID s' = LastKnownPID s /\ CheckAlive s' = CheckAlive s /\ Deleted s' = Deleted s.

(** The bytes of the decimal digits. *)
Definition isDigit (b : N) : Prop := (48 <= b <= 57)%N.

(** The line feed. *)
Definition nl : string := String "010" "".

(** The reading of the specification of the PID file: its contents,
    trimmed, are a positive integer. *)
Definition positivePid (contents : string) : bool :=
  match Atoi (TrimSpace contents) with
  | Some pid => 0 <? pid
  | None => false
  end.

(** The state Start leaves in the registry and the error it returns, by
    the result of the command. *)
Definition startOutcome (err : option error) : RunState * option error :=
  match err with
  | Some e =>
      if String.eqb (Error e) errWaitNoChild || String.eqb (Error e) errWaitIDNoChild
      then (Started, None) else (Errored, Some e)
  | None => (Started, None)
  end.




(** How often a tag is put in the shared map in a trace. *)
Definition timesMarked (t : ServiceType) (tr : list Event) : nat :=
  length (List.filter (fun e => match e with
                           | EvMark t' => String.eqb t' t
                           | _ => false
                           end) tr).

(** ** Concrete services, worlds and environments *)

Module Examples.

(** Every command runs for one second and exits with 0; nobody else marks
    a capability. *)
Definition quiet : Env :=
  mkEnv (fun _ _ _ => (None, 1)) (fun _ _ => (None, 4242)) (fun _ _ => (None, 10))
        (fun _ _ => None) (fun _ _ => ("", None)) (fun _ _ => None) (fun _ => ∅).

(** Every command runs for one second and exits with 1. *)
Definition failing : Env :=
  mkEnv (fun _ _ _ => (Some (ExitError "exit status 1"), 1))
        (fun _ _ => (None, 4242)) (fun _ _ => (Some (ExitError "exit status 1"), 10))
        (fun _ _ => None) (fun _ _ => ("", None)) (fun _ _ => None) (fun _ => ∅).

(** The wait of a run finds the child reaped. *)
Definition reaped : Env :=
  mkEnv (fun _ _ _ => (Some (OSError "wait: no child processes" false), 3))
        (fun _ _ => (None, 4242)) (fun _ _ => (None, 10))
        (fun _ _ => None) (fun _ _ => ("", None)) (fun _ _ => None) (fun _ => ∅).

(** The PID file is there and holds the given text; every PID is found. *)
Definition pidfile (contents : string) : Env :=
  mkEnv (fun _ _ _ => (None, 1)) (fun _ _ => (None, 4242)) (fun _ _ => (None, 10))
        (fun _ _ => None) (fun _ _ => (contents, None)) (fun _ _ => None) (fun _ => ∅).


Definition web : Service :=
  mkService "web" true ["net"; "dns"] [] "" NotStarted Unknown 0 "" 0
            "oneshot" "" "run web" "" "" false.

Definition db : Service :=
  mkService "db" true ["sql"] ["net"] "" NotStarted Unknown 0 "" 0
            "forking" "" "run db" "" "" false.

Definition tail : Service :=
  mkService "tail" true ["log"] [] "" Started Start 7 "" 555
            "simple" "" "tail -f /var/log/messages" "" "" false.

Definition cron : Service :=
  mkService "cron" true ["cron"] [] "" Started Start 7 "" 0
            "forking" "/run/cron.pid" "cron" "" "" false.

Definition ntp : Service :=
  mkService "ntp" true ["time"] [] "" Started Start 7 "" 0
            "forking" "" "ntpd" "" "pgrep ntpd" false.

(** A world with one record, registered under its name at address 1. *)
Definition world (s : Service) : World :=
  mkWorld {[1%nat := s]} {[Name s := 1%nat]} ∅ 0 [] [].

(** The world after the probe of cron by its PID file holding 999. *)
Definition probed_cron : World :=
  mkWorld {[1%nat := cron]} {["cron" := 1%nat]} ∅ 0
          [EvStat "/run/cron.pid"; EvReadFile "/run/cron.pid"; EvFindProcess 999] [].

End Examples.

(** Further worlds and environments. *)
Module Cases.

(** web, a provider, at address 1 and db, which needs net, at address 2. *)
Definition two : World :=
  mkWorld {[1%nat := Examples.web; 2%nat := Examples.db]}
          {["web" := 1%nat; "db" := 2%nat]} ∅ 0 [] [].

(** web, not to be started at boot. *)
Definition manual : Service :=
  mkService "web" false ["net"; "dns"] [] "" NotStarted Unknown 0 "" 0
            "oneshot" "" "run web" "" "" false.

(** A record that the registry does not know. *)
Definition orphaned (s : Service) : World :=
  mkWorld {[1%nat := s]} ∅ ∅ 0 [] [].

(** No file exists; every command exits with 1. *)
Definition nofile : Env :=
  mkEnv (fun _ _ _ => (Some (ExitError "exit status 1"), 1))
        (fun _ _ => (None, 4242)) (fun _ _ => (None, 10))
        (fun _ _ => Some (OSError "no such file or directory" true))
        (fun _ _ => ("", Some (OSError "no such file or directory" true)))
        (fun _ _ => None) (fun _ => ∅).

(** The PID file exists and cannot be read. *)
Definition unreadable : Env :=
  mkEnv (fun _ _ _ => (None, 1)) (fun _ _ => (None, 4242)) (fun _ _ => (None, 10))
        (fun _ _ => None) (fun _ _ => ("", Some (OSError "permission denied" false)))
        (fun _ _ => None) (fun _ => ∅).

(** No process can be launched. *)
Definition nolaunch : Env :=
  mkEnv (fun _ _ _ => (None, 1)) (fun _ _ => (Some (OSError "fork: out of memory" false), 0))
        (fun _ _ => (None, 10))
        (fun _ _ => None) (fun _ _ => ("", None)) (fun _ _ => None) (fun _ => ∅).

(** The world of cron after a probe that found no PID file. *)
Definition statted_cron (s : Service) : World :=
  mkWorld {[1%nat := s]} {[Name s := 1%nat]} ∅ 0 [EvStat "/run/cron.pid"] [].

(** A service file and a setup file. *)
Definition service_file : string :=
  "Name: web" +:+ nl +:+ "Startup: run web" +:+ nl +:+ "Startup: run other" +:+ nl
  +:+ "Provides: net, dns" +:+ nl +:+ "Name: other" +:+ nl.

Definition setup_file : string :=
  "Autologin: root" +:+ nl +:+ "Persist: true" +:+ nl +:+ "Autologin:" +:+ nl
  +:+ "Persist: false" +:+ nl.

End Cases.

(** * Properties *)

(** ** Symbolic execution *)

Ltac go_unfold :=
  unfold setLoaded, run, startProc, waitProc, stat, readFile, findProcess, sleep;
  unfold bind, loaded, store, deref, now, emit, elapse, ret.

Ltac go_red :=
  cbn [heap LoadedServices startedTypes clock trace spawned
       with_heap with_started with_clock with_trace with_spawned
       Name AutoStart Provides Needs Description State LastAction LastActionAt
       LastMessage LastKnownPID Type_ PIDFile Startup Shutdown CheckAlive Deleted
       set_State set_LastAction set_LastActionAt set_LastMessage set_LastKnownPID
       isExitError negb orb andb fst snd].

(** Runs the straight-line code of the goal, with the given equations for
    the lookups and the answers of the environment. *)
Tactic Notation "go_run" "with" constr(H1) :=
  go_unfold;
  repeat (progress (go_red; rewrite ?H1, ?lookup_insert_eq, ?insert_insert_eq)).

Tactic Notation "go_run" "with" constr(H1) constr(H2) :=
  go_unfold;
  repeat (progress (go_red; rewrite ?H1, ?H2, ?lookup_insert_eq, ?insert_insert_eq)).

Tactic Notation "go_run" "with" constr(H1) constr(H2) constr(H3) :=
  go_unfold;
  repeat (progress (go_red; rewrite ?H1, ?H2, ?H3, ?lookup_insert_eq, ?insert_insert_eq)).

Tactic Notation "go_run" "with" constr(H1) constr(H2) constr(H3) constr(H4) :=
  go_unfold;
  repeat (progress (go_red; rewrite ?H1, ?H2, ?H3, ?H4, ?lookup_insert_eq, ?insert_insert_eq)).

Lemma RunState_eqb_eq (a b : RunState) : RunState_eqb a b = true <-> a = b.
Proof. destruct a, b; simpl; split; intros H; try reflexivity; discriminate H. Qed.

Lemma RunState_eqb_neq (a b : RunState) : RunState_eqb a b = false <-> a <> b.
Proof.
  destruct a, b; simpl; split; intros H; try reflexivity; try discriminate H;
    try (intros E; discriminate E); exfalso; apply H; reflexivity.
Qed.

Lemma bind_Ok {A B} (c : M A) (k : A -> M B) (w w' : World) (a : A) :
  c w = Ok a w' -> bind c k w = k a w'.
Proof. intros H. unfold bind. rewrite H. reflexivity. Qed.

(** ** Start *)

Section StartFacts.

Variable env : Env.

(** Start from NotStarted on a registered service returns, and leaves the
    world as follows. *)
Lemma Service_Start_run (s : Service) (w : World) (l : nat) (r : Service)
      (err : option error) (d : Z) :
  State s = NotStarted ->
  LoadedServices w !! Name s = Some l ->
  heap w !! l = Some r ->
  os_run env (Startup s) true (clock w) = (err, d) ->
  Service_Start env s w =
    Ok (snd (startOutcome err))
       (mkWorld
          (<[l := set_LastAction Start
                    (set_LastActionAt (clock w + d)
                       (set_State (fst (startOutcome err))
                          (set_LastAction Start
                             (set_LastActionAt (clock w) (set_State Starting r)))))]> (heap w))
          (LoadedServices w) (startedTypes w) (clock w + d)
          (trace w ++ [EvRun (Startup s) true]) (spawned w)).
Proof.
  intros HS HL Hh Hrun.
  unfold Service_Start. rewrite HS. cbn [RunState_eqb negb].
  go_run with HL Hh Hrun.
  destruct err as [e|]; cbn [startOutcome].
  - destruct (String.eqb (Error e) errWaitNoChild || String.eqb (Error e) errWaitIDNoChild);
      go_run with HL Hh; reflexivity.
  - go_run with HL Hh. reflexivity.
Qed.

End StartFacts.

(** C3. Start of a service in state NotStarted whose registry record
    exists: when the synchronous run of the Startup command returns an
    error whose message is one of the two "no child processes" wait errors,
    Start returns no error and the registry record is Started; any other
    error of the run leaves the record Errored and is returned. *)
Theorem Start_reap_race (env : Env) (s : Service) (w : World) (l : nat) (r : Service)
        (e : error) (d : Z) :
  State s = NotStarted ->
  LoadedServices w !! Name s = Some l ->
  heap w !! l = Some r ->
  os_run env (Startup s) true (clock w) = (Some e, d) ->
  (Error e = errWaitNoChild \/ Error e = errWaitIDNoChild ->
   exists w',
     Service_Start env s w = Ok None w' /\
     State <$> registryRecord (Name s) w' = Some Started /\
     LastAction <$> registryRecord (Name s) w' = Some Start) /\
  (Error e <> errWaitNoChild /\ Error e <> errWaitIDNoChild ->
   exists w',
     Service_Start env s w = Ok (Some e) w' /\
     State <$> registryRecord (Name s) w' = Some Errored /\
     LastAction <$> registryRecord (Name s) w' = Some Start).
Proof.
  intros HS HL Hh Hrun.
  pose proof (Service_Start_run env s w l r (Some e) d HS HL Hh Hrun) as Hgo.
  split.
  - intros Hmsg.
    assert (Hout : startOutcome (Some e) = (Started, None)).
    { cbn [startOutcome]. destruct Hmsg as [-> | ->].
      - reflexivity.
      - rewrite String.eqb_refl, orb_true_r. reflexivity. }
    rewrite Hout in Hgo. eexists. split; [exact Hgo|].
    unfold registryRecord. go_red. rewrite HL, lookup_insert_eq. split; reflexivity.
  - intros [Hn1 Hn2].
    assert (Hout : startOutcome (Some e) = (Errored, Some e)).
    { cbn [startOutcome].
      apply String.eqb_neq in Hn1. apply String.eqb_neq in Hn2.
      rewrite Hn1, Hn2. reflexivity. }
    rewrite Hout in Hgo. eexists. split; [exact Hgo|].
    unfold registryRecord. go_red. rewrite HL, lookup_insert_eq. split; reflexivity.
Qed.

(** ** The liveness probe *)

Section ProbeFacts.

Variable env : Env.

Ltac probe_case :=
  match goal with
  | |- context [os_stat env ?p ?t] => destruct (os_stat env p t) as [[]|] eqn:?
  | |- context [os_readFile env ?p ?t] => destruct (os_readFile env p t) as [? [?|]] eqn:?
  | |- context [os_findProcess env ?p ?t] => destruct (os_findProcess env p t) eqn:?
  | |- context [os_run env ?c ?b ?t] => destruct (os_run env c b t) as [[?|] ?] eqn:?
  | |- context [Atoi ?x] => destruct (Atoi x) eqn:?
  | |- context [if ?b then _ else _] => destruct b eqn:?
  end.

(** The probe changes neither the records nor the registry, starts no
    goroutine and marks no capability; what it does is read, and run the
    CheckAlive command. *)
Lemma checkIfProcessAlive_frame (p : ptr) (w w1 : World) (res : bool * Z * option error) :
  checkIfProcessAlive env p w = Ok res w1 ->
  heap w1 = heap w /\ LoadedServices w1 = LoadedServices w /\
  startedTypes w1 = startedTypes w /\ spawned w1 = spawned w /\
  exists evs, trace w1 = trace w ++ evs /\ forallb probeEvent evs = true.
Proof.
  unfold checkIfProcessAlive, getProcessPid, processAliveByPid, processAliveByCmd.
  go_unfold.
  destruct p as [l|]; [|discriminate].
  destruct (heap w !! l) as [sv|] eqn:Hh; [|discriminate].
  repeat (go_red; rewrite ?Hh; try probe_case);
    intros H; inversion H; subst; go_red;
    (repeat split; try reflexivity);
    rewrite <- ?app_assoc;
    first [ exists []; split; [symmetry; apply app_nil_r | reflexivity]
          | eexists; split; reflexivity ].
Qed.

End ProbeFacts.

(** ** CheckAndStartService *)

Lemma probe_deref (env : Env) (p : ptr) (w w1 : World) (res : bool * Z * option error) :
  checkIfProcessAlive env p w = Ok res w1 ->
  exists sv, deref p w = Ok sv w /\ deref p w1 = Ok sv w1.
Proof.
  intros H. pose proof (checkIfProcessAlive_frame env p w w1 res H) as (Hheap & _).
  unfold checkIfProcessAlive, bind in H. unfold deref in *.
  destruct p as [l|]; [|discriminate H].
  rewrite Hheap.
  destruct (heap w !! l) as [sv|]; [|discriminate H].
  exists sv. split; reflexivity.
Qed.

(** C4. Start on a service whose state is not NotStarted returns the error
    that reports the state and leaves the world as it is (so the State,
    LastAction, LastActionAt and LastKnownPID of the registry record are
    unchanged).  CheckAndStartService on a service the probe reports alive
    returns the error "already running", with the PID when it is not 0; it
    ends in the world the probe left, where no record, no registry entry
    and no goroutine has changed and nothing was done but the probe. *)
Theorem Start_refused_when_not_NotStarted
        (env : Env) (s : Service) (p : ptr) (w w1 : World) (pid : Z) :
  (State s <> NotStarted ->
   Service_Start env s w =
     Ok (Some (ErrorString ("Service " +:+ Name s +:+ " is " +:+ RunState_String (State s)))) w) /\
  (checkIfProcessAlive env p w = Ok (true, pid, None) w1 ->
   exists sv,
     deref p w = Ok sv w /\
     CheckAndStartService env p w =
       Ok (Some (ErrorString
                   (if pid =? 0
                    then "process " +:+ Name sv +:+ " already running"
                    else "process " +:+ Name sv +:+ " already running as PID " +:+ itoa pid)))
          w1 /\
     heap w1 = heap w /\ LoadedServices w1 = LoadedServices w /\
     spawned w1 = spawned w /\ startedTypes w1 = startedTypes w /\
     exists evs, trace w1 = trace w ++ evs /\ forallb probeEvent evs = true).
Proof.
  split.
  - intros HS. unfold Service_Start.
    destruct (State s); [exfalso; apply HS; reflexivity | reflexivity ..].
  - intros H.
    destruct (probe_deref env p w w1 _ H) as (sv & Hd & Hd1).
    destruct (checkIfProcessAlive_frame env p w w1 _ H) as (Hh & HL & Hst & Hsp & Hev).
    exists sv. split; [exact Hd|]. split; [|tauto].
    unfold CheckAndStartService. rewrite (bind_Ok _ _ w w1 _ H).
    destruct (pid =? 0); cbn [andb negb]; rewrite (bind_Ok _ _ w1 w1 _ Hd1); reflexivity.
Qed.

(** ** ExecShutdown and the probe by command *)

(** ExecShutdown returns the error of the run of the command, whatever
    it is. *)
Lemma ExecShutdown_run (env : Env) (command : string) (w : World) (err : option error) (d : Z) :
  os_run env command false (clock w) = (err, d) ->
  ExecShutdown env command w =
    Ok err (with_clock (clock w + d) (with_trace (trace w ++ [EvRun command false]) w)).
Proof.
  intros Hrun. unfold ExecShutdown. go_run with Hrun.
  destruct err; reflexivity.
Qed.

(** C6. ExecShutdown on a command that runs and exits with a non-zero
    code returns that exit error, not nil: the exit code is told apart
    from success.  (A zero exit gives nil, by [ExecShutdown_run].) *)
Theorem ExecShutdown_nonzero_exit_is_error
        (env : Env) (command : string) (w : World) (msg : string) (d : Z) :
  os_run env command false (clock w) = (Some (ExitError msg), d) ->
  exists w', ExecShutdown env command w = Ok (Some (ExitError msg)) w'.
Proof.
  intros Hrun. eexists. apply (ExecShutdown_run env command w _ d Hrun).
Qed.

(** The probe of a service without PIDFile and with a CheckAlive command
    runs the command; alive and no error when the run has no error, else
    not alive and the error of the run. *)
Lemma probe_by_command (env : Env) (l : nat) (sv : Service) (w : World)
      (err : option error) (d : Z) :
  heap w !! l = Some sv ->
  PIDFile sv = "" ->
  CheckAlive sv <> "" ->
  os_run env (CheckAlive sv) false (clock w) = (err, d) ->
  checkIfProcessAlive env (Some l) w =
    Ok (match err with
        | Some e => (false, 0, Some e)
        | None => (true, 0, None)
        end)
       (with_clock (clock w + d) (with_trace (trace w ++ [EvRun (CheckAlive sv) false]) w)).
Proof.
  intros Hh HP HC Hrun.
  apply String.eqb_neq in HC.
  unfold checkIfProcessAlive, processAliveByCmd.
  go_run with Hh Hrun. rewrite HP. cbn [String.eqb negb]. rewrite HC. cbn [negb].
  go_run with Hh Hrun.
  destruct err; reflexivity.
Qed.

(** C7. The probe of a service with a CheckAlive command and no PIDFile,
    when the command runs and exits with a non-zero code: not alive, and
    the exit error is returned as the error of the probe (not nil). *)
Theorem probe_by_command_nonzero_exit_is_error
        (env : Env) (l : nat) (sv : Service) (w : World) (msg : string) (d : Z) :
  heap w !! l = Some sv ->
  PIDFile sv = "" ->
  CheckAlive sv <> "" ->
  os_run env (CheckAlive sv) false (clock w) = (Some (ExitError msg), d) ->
  exists w', checkIfProcessAlive env (Some l) w = Ok (false, 0, Some (ExitError msg)) w'.
Proof.
  intros Hh HP HC Hrun. eexists.
  apply (probe_by_command env l sv w _ d Hh HP HC Hrun).
Qed.

(** ** The probe by PID file *)

(** C8, as the code has it.  For a service with PIDFile set: when the file
    does not exist the probe returns (false, 0, nil).  When it exists and
    is read, its contents are trimmed of white space and parsed as a
    signed decimal integer: contents that are no such integer give the
    error "error parsing pid from: <PIDFile>"; an integer is the PID that
    getProcessPid returns, and then the probe returns an error for 0 and
    (true, pid, nil) for any other integer, negative ones too, the process
    table answering without error.  The line "  4242" parses as 4242, and
    "abc" does not parse. *)
Theorem probe_by_pidfile (env : Env) (l : nat) (sv : Service) (w : World) :
  heap w !! l = Some sv ->
  PIDFile sv <> "" ->
  (IsNotExist (os_stat env (PIDFile sv) (clock w)) = true ->
   exists w', checkIfProcessAlive env (Some l) w = Ok (false, 0, None) w') /\
  (forall d : string,
     IsNotExist (os_stat env (PIDFile sv) (clock w)) = false ->
     os_readFile env (PIDFile sv) (clock w) = (d, None) ->
     match Atoi (TrimSpace d) with
     | None =>
         exists w', checkIfProcessAlive env (Some l) w =
                      Ok (false, 0, Some (ErrorString ("error parsing pid from: " +:+ PIDFile sv))) w'
     | Some pid =>
         (exists w', getProcessPid env (Some l) w = Ok (pid, None) w') /\
         (pid = 0 ->
          exists w' e, checkIfProcessAlive env (Some l) w = Ok (false, 0, Some e) w') /\
         (pid <> 0 -> os_findProcess env pid (clock w) = None ->
          exists w', checkIfProcessAlive env (Some l) w = Ok (true, pid, None) w')
     end) /\
  Atoi (TrimSpace ("  4242" +:+ nl)) = Some 4242 /\
  Atoi (TrimSpace "abc") = None.
Proof.
  intros Hh HP. apply String.eqb_neq in HP.
  split; [|split; [|split; reflexivity]].
  - intros Hstat. unfold checkIfProcessAlive.
    go_run with Hh. rewrite HP. cbn [negb]. go_run with Hh Hstat.
    eexists. reflexivity.
  - intros d Hstat Hread.
    destruct (Atoi (TrimSpace d)) as [pid|] eqn:Hpid.
    + split; [|split].
      * unfold getProcessPid. go_run with Hh Hread Hpid. eexists. reflexivity.
      * intros ->. unfold checkIfProcessAlive, getProcessPid, processAliveByPid.
        go_run with Hh. rewrite HP. cbn [negb]. go_run with Hh Hstat Hread Hpid.
        cbn [Z.eqb]. go_run with Hh. eexists. eexists. reflexivity.
      * intros Hnz Hfind. apply Z.eqb_neq in Hnz.
        unfold checkIfProcessAlive, getProcessPid, processAliveByPid.
        go_run with Hh. rewrite HP. cbn [negb]. go_run with Hh Hstat Hread Hpid.
        rewrite Hnz. go_run with Hh Hfind. eexists. reflexivity.
    + unfold checkIfProcessAlive, getProcessPid.
      go_run with Hh. rewrite HP. cbn [negb]. go_run with Hh Hstat Hread Hpid.
      eexists. reflexivity.
Qed.

(** ** CheckAndStopService *)


(** ** StartSimple *)

(** C5. StartSimple on a registered service whose process is launched and
    then exits with an error (a non-zero exit code): the registry record
    becomes Stopped with LastKnownPID 0 and the error as LastMessage, but
    its LastAction is still Start and its LastActionAt still the time of
    the launch; Stop is not stamped. *)
Theorem StartSimple_failed_exit_not_stamped
        (env : Env) (s : Service) (w : World) (l : nat) (r : Service)
        (pid : Z) (e : error) (d : Z) :
  LoadedServices w !! Name s = Some l ->
  heap w !! l = Some r ->
  os_start env (Startup s) (clock w) = (None, pid) ->
  os_wait env pid (clock w) = (Some e, d) ->
  exists w' r',
    Service_StartSimple env s w = Ok tt w' /\
    registryRecord (Name s) w' = Some r' /\
    State r' = Stopped /\ LastKnownPID r' = 0 /\ LastMessage r' = Error e /\
    LastAction r' = Start /\ LastActionAt r' = clock w /\ clock w' = clock w + d.
Proof.
  intros HL Hh Hstart Hwait.
  unfold Service_StartSimple. go_run with HL Hh Hstart Hwait.
  eexists. eexists. split; [reflexivity|].
  unfold registryRecord. go_red. rewrite HL, lookup_insert_eq.
  split; [reflexivity|]. repeat split.
Qed.

(** The other exits of StartSimple: a clean exit stamps Stop, a failed
    launch leaves the record Errored. *)
Lemma StartSimple_clean_exit
      (env : Env) (s : Service) (w : World) (l : nat) (r : Service) (pid d : Z) :
  LoadedServices w !! Name s = Some l ->
  heap w !! l = Some r ->
  os_start env (Startup s) (clock w) = (None, pid) ->
  os_wait env pid (clock w) = (None, d) ->
  exists w' r',
    Service_StartSimple env s w = Ok tt w' /\
    registryRecord (Name s) w' = Some r' /\
    State r' = Stopped /\ LastKnownPID r' = 0 /\
    LastAction r' = Stop /\ LastActionAt r' = clock w + d.
Proof.
  intros HL Hh Hstart Hwait.
  unfold Service_StartSimple. go_run with HL Hh Hstart Hwait.
  eexists. eexists. split; [reflexivity|].
  unfold registryRecord. go_red. rewrite HL, lookup_insert_eq.
  split; [reflexivity|]. repeat split.
Qed.

Lemma StartSimple_failed_launch
      (env : Env) (s : Service) (w : World) (l : nat) (r : Service) (pid : Z) (e : error) :
  LoadedServices w !! Name s = Some l ->
  heap w !! l = Some r ->
  os_start env (Startup s) (clock w) = (Some e, pid) ->
  exists w' r',
    Service_StartSimple env s w = Ok tt w' /\
    registryRecord (Name s) w' = Some r' /\
    State r' = Errored /\ LastKnownPID r' = 0 /\ LastMessage r' = Error e.
Proof.
  intros HL Hh Hstart.
  unfold Service_StartSimple. go_run with HL Hh Hstart.
  eexists. eexists. split; [reflexivity|].
  unfold registryRecord. go_red. rewrite HL, lookup_insert_eq.
  split; [reflexivity|]. repeat split.
Qed.

(** ** The wait loop of the launcher *)

Section WaitFacts.

Variable env : Env.

Lemma polled_heap (n : nat) (w : World) : heap (polled n w) = heap w.
Proof. revert w. induction n as [|n IH]; intros w; [reflexivity|]. cbn [polled]. rewrite IH. reflexivity. Qed.

Lemma polled_LoadedServices (n : nat) (w : World) :
  LoadedServices (polled n w) = LoadedServices w.
Proof. revert w. induction n as [|n IH]; intros w; [reflexivity|]. cbn [polled]. rewrite IH. reflexivity. Qed.

Lemma polled_startedTypes (n : nat) (w : World) : startedTypes (polled n w) = startedTypes w.
Proof. revert w. induction n as [|n IH]; intros w; [reflexivity|]. cbn [polled]. rewrite IH. reflexivity. Qed.

Lemma polled_spawned (n : nat) (w : World) : spawned (polled n w) = spawned w.
Proof. revert w. induction n as [|n IH]; intros w; [reflexivity|]. cbn [polled]. rewrite IH. reflexivity. Qed.

Lemma polled_clock (n : nat) (w : World) : clock (polled n w) = clock w + 2 * Z.of_nat n.
Proof.
  revert w. induction n as [|n IH]; intros w.
  - cbn [polled]. lia.
  - cbn [polled]. rewrite IH. unfold pollStep. go_red. lia.
Qed.

Lemma polled_trace (n : nat) (w : World) :
  trace (polled n w) = trace w ++ concat (repeat [EvPoll; EvSleep 2] n).
Proof.
  revert w. induction n as [|n IH]; intros w.
  - cbn [polled repeat concat]. rewrite app_nil_r. reflexivity.
  - cbn [polled repeat concat]. rewrite IH. unfold pollStep. go_red.
    rewrite <- !app_assoc. reflexivity.
Qed.

Lemma satAt_pollStep (sv : Service) (w : World) (i : nat) :
  satAt env sv (pollStep w) i = satAt env sv w (S i).
Proof.
  unfold satAt, visible, pollStep. go_red.
  replace (clock w + 2 + 2 * Z.of_nat i) with (clock w + 2 * Z.of_nat (S i)) by lia.
  reflexivity.
Qed.

Lemma waitNeeds_satisfied (fuel : nat) (s : ptr) (tries : nat) (w : World) :
  waitNeeds env fuel s true tries w = Ok (true, tries) w.
Proof. destruct fuel; reflexivity. Qed.

(** One iteration: the poll reads the map as it is then, the sleep
    follows. *)
Lemma waitNeeds_step (fuel : nat) (l : nat) (sv : Service) (tries : nat) (w : World) :
  heap w !! l = Some sv ->
  (tries < 60)%nat ->
  waitNeeds env (S fuel) (Some l) false tries w =
  waitNeeds env fuel (Some l) (satAt env sv w 0) (S tries) (pollStep w).
Proof.
  intros Hh Ht. apply Nat.ltb_lt in Ht.
  cbn [waitNeeds Bool.eqb]. rewrite Ht. cbn [andb].
  unfold poll. go_run with Hh.
  unfold satAt, visible, pollStep. go_red.
  replace (clock w + 2 * Z.of_nat 0) with (clock w) by lia.
  reflexivity.
Qed.

(** The loop from any iteration on, with the fuel that is left of 60. *)
Lemma waitNeeds_run (l : nat) (sv : Service) (fuel : nat) :
  forall (tries : nat) (w : World),
    heap w !! l = Some sv ->
    (tries + fuel = 60)%nat ->
    exists (sat : bool) (n : nat),
      waitNeeds env fuel (Some l) false tries w = Ok (sat, (tries + n)%nat) (polled n w) /\
      (n <= fuel)%nat /\
      (0 < fuel -> 0 < n)%nat /\
      (n = O -> sat = false) /\
      (forall i, (S i < n)%nat -> satAt env sv w i = false) /\
      (0 < n -> sat = satAt env sv w (n - 1))%nat /\
      (sat = false -> n = fuel).
Proof.
  induction fuel as [|fuel IH]; intros tries w Hh Hsum.
  - exists false, O. cbn [waitNeeds polled]. rewrite Nat.add_0_r.
    repeat split; try lia; try reflexivity.
  - rewrite (waitNeeds_step fuel l sv tries w Hh) by lia.
    destruct (satAt env sv w 0) eqn:H0.
    + exists true, 1%nat. rewrite waitNeeds_satisfied. rewrite Nat.add_1_r.
      cbn [polled]. repeat split; try lia; try discriminate.
      intros _. cbn [Nat.sub]. symmetry. exact H0.
    + assert (Hh1 : heap (pollStep w) !! l = Some sv) by exact Hh.
      destruct (IH (S tries) (pollStep w) Hh1 ltac:(lia))
        as (sat & n & Hrun & Hle & Hpos & Hzero & Hbefore & Hlast & Hfalse).
      exists sat, (S n). rewrite Hrun. rewrite Nat.add_succ_r. cbn [polled plus].
      repeat split; try lia.
      * intros i Hi. destruct i as [|i]; [exact H0|].
        rewrite <- satAt_pollStep. apply Hbefore. lia.
      * intros _. cbn [Nat.sub]. rewrite Nat.sub_0_r.
        destruct n as [|n].
        -- rewrite Hzero by reflexivity. symmetry. exact H0.
        -- rewrite <- satAt_pollStep. rewrite Hlast by lia.
           cbn [Nat.sub]. rewrite Nat.sub_0_r. reflexivity.
      * intros Hs. rewrite (Hfalse Hs). reflexivity.
Qed.


End WaitFacts.

(** ** The start step and the marking of the capabilities *)

Section LauncherFacts.

Variable env : Env.

Lemma markProvides_run (ts : list ServiceType) :
  forall w : World,
    markProvides ts w =
      Ok tt (with_trace (trace w ++ map EvMark ts)
               (with_started (fold_left (fun m t => <[t := true]> m) ts (startedTypes w)) w)).
Proof.
  induction ts as [|t ts IH]; intros w.
  - cbn [markProvides map fold_left]. unfold ret. destruct w. go_red.
    rewrite app_nil_r. reflexivity.
  - cbn [markProvides map fold_left]. unfold bind, mark. rewrite IH. go_red.
    rewrite <- app_assoc. reflexivity.
Qed.

Lemma marked_stays (ts : list ServiceType) (t : ServiceType) :
  forall m : gmap string bool,
    m !! t = Some true ->
    fold_left (fun m t => <[t := true]> m) ts m !! t = Some true.
Proof.
  induction ts as [|t' ts IH]; intros m Hm; [exact Hm|].
  cbn [fold_left]. apply IH.
  destruct (decide (t' = t)) as [->|Hne].
  - apply lookup_insert_eq.
  - rewrite lookup_insert_ne by exact Hne. exact Hm.
Qed.

Lemma marked_all (ts : list ServiceType) (t : ServiceType) :
  forall m : gmap string bool,
    In t ts ->
    fold_left (fun m t => <[t := true]> m) ts m !! t = Some true.
Proof.
  induction ts as [|t' ts IH]; intros m Hin; [destruct Hin|].
  cbn [fold_left]. destruct Hin as [->|Hin].
  - apply marked_stays. apply lookup_insert_eq.
  - apply IH. exact Hin.
Qed.

(** The start step on a record registered under its own name returns; it
    leaves the Provides of the record and the shared map as they are and
    marks nothing.  When the record is NotStarted and AutoStart, a
    oneshot or forking service has its Startup command run, and a simple
    one has its StartSimple goroutine started. *)
Lemma startStep_run (l : nat) (sv : Service) (w : World) :
  heap w !! l = Some sv ->
  LoadedServices w !! Name sv = Some l ->
  exists (w' : World) (sv' : Service) (pre : list Event),
    startStep env (Some l) w = Ok tt w' /\
    heap w' !! l = Some sv' /\
    Provides sv' = Provides sv /\
    startedTypes w' = startedTypes w /\
    trace w' = trace w ++ pre /\
    forallb (fun e => negb (isMark e)) pre = true /\
    (State sv = NotStarted -> AutoStart sv = true ->
     (Type_ sv = "oneshot" \/ Type_ sv = "forking" -> pre = [EvRun (Startup sv) true]) /\
     (Type_ sv = "simple" -> spawned w' = spawned w ++ [sv])).
Proof.
  intros Hh HL.
  assert (Hskip : exists (sv' : Service) (pre : list Event),
             heap w !! l = Some sv' /\ Provides sv' = Provides sv /\
             startedTypes w = startedTypes w /\ trace w = trace w ++ pre /\
             forallb (fun e => negb (isMark e)) pre = true).
  { exists sv, []. rewrite app_nil_r. repeat split; assumption. }
  unfold startStep. rewrite (bind_Ok _ _ w w sv) by (unfold deref; rewrite Hh; reflexivity).
  destruct (RunState_eqb (State sv) NotStarted) eqn:HS; cbn [andb].
  2:{ destruct Hskip as (sv' & pre & H1 & H2 & H3 & H4 & H5).
      exists w, sv', pre. repeat split; try assumption;
        apply RunState_eqb_neq in HS; intros; contradiction. }
  destruct (AutoStart sv) eqn:HA.
  2:{ destruct Hskip as (sv' & pre & H1 & H2 & H3 & H4 & H5).
      exists w, sv', pre. repeat split; try assumption; intros; discriminate. }
  apply RunState_eqb_eq in HS.
  destruct (String.eqb (Type_ sv) "oneshot" || String.eqb (Type_ sv) "forking") eqn:HT.
  - destruct (os_run env (Startup sv) true (clock w)) as [err d] eqn:Hrun.
    rewrite (bind_Ok _ _ _ _ _ (Service_Start_run env sv w l sv err d HS HL Hh Hrun)).
    unfold ret. eexists. eexists. exists [EvRun (Startup sv) true].
    split; [reflexivity|]. go_red. rewrite lookup_insert_eq.
    split; [reflexivity|]. repeat split.
    intros HT'. rewrite HT' in HT. discriminate HT.
  - apply orb_false_iff in HT. destruct HT as [HT1 HT2].
    apply String.eqb_neq in HT1. apply String.eqb_neq in HT2.
    destruct (String.eqb (Type_ sv) "simple") eqn:HT3.
    + unfold goStartSimple. go_run with Hh.
      eexists. exists sv, []. split; [reflexivity|]. go_red. rewrite app_nil_r.
      repeat split; try assumption. intros [Ht|Ht]; contradiction.
    + apply String.eqb_neq in HT3.
      destruct Hskip as (sv' & pre & H1 & H2 & H3 & H4 & H5).
      exists w, sv', pre. unfold ret. repeat split; try assumption.
      * intros [Ht|Ht]; contradiction.
      * intros Ht; contradiction.
Qed.

(** The whole goroutine: the wait loop, the start step in the world the
    loop left, then the marking. *)
Lemma launcher_run (l : nat) (sv : Service) (w : World) :
  heap w !! l = Some sv ->
  LoadedServices w !! Name sv = Some l ->
  exists (n : nat) (w2 : World) (pre : list Event),
    startStep env (Some l) (polled n w) = Ok tt w2 /\
    startedTypes w2 = startedTypes w /\
    trace w2 = trace (polled n w) ++ pre /\
    forallb (fun e => negb (isMark e)) pre = true /\
    (State sv = NotStarted -> AutoStart sv = true ->
     (Type_ sv = "oneshot" \/ Type_ sv = "forking" -> pre = [EvRun (Startup sv) true]) /\
     (Type_ sv = "simple" -> spawned w2 = spawned w ++ [sv])) /\
    launcher env (Some l) w =
      Ok tt (with_trace (trace w2 ++ map EvMark (Provides sv))
               (with_started
                  (fold_left (fun m t => <[t := true]> m) (Provides sv) (startedTypes w2)) w2)).
Proof.
  intros Hh HL.
  destruct (waitNeeds_run env l sv 60 0 w Hh eq_refl) as (sat & n & Hwait & _).
  assert (Hh1 : heap (polled n w) !! l = Some sv) by (rewrite polled_heap; exact Hh).
  assert (HL1 : LoadedServices (polled n w) !! Name sv = Some l)
    by (rewrite polled_LoadedServices; exact HL).
  destruct (startStep_run l sv (polled n w) Hh1 HL1)
    as (w2 & sv' & pre & Hstart & Hh2 & HP & Hst & Htr & Hpre & Hdone).
  exists n, w2, pre.
  split; [exact Hstart|]. split; [rewrite Hst; apply polled_startedTypes|].
  split; [exact Htr|]. split; [exact Hpre|].
  split; [rewrite <- (polled_spawned n w); exact Hdone|].
  unfold launcher.
  rewrite (bind_Ok _ _ _ _ _ Hwait), (bind_Ok _ _ _ _ _ Hstart).
  rewrite (bind_Ok _ _ w2 w2 sv') by (unfold deref; rewrite Hh2; reflexivity).
  rewrite markProvides_run, HP. reflexivity.
Qed.

Lemma polls_are_no_marks (n : nat) :
  forallb (fun e => negb (isMark e)) (concat (repeat [EvPoll; EvSleep 2] n)) = true.
Proof. induction n as [|n IH]; [reflexivity|exact IH]. Qed.

(** C2, as the code has it.  A launcher goroutine of StartServices, for a
    record registered under its own name, returns, and with the start step
    behind it (attempted or not, with or without error) it has put every
    Provides tag of the record in the shared map: once per goroutine, in
    the order of Provides, and after everything else it does.
    StartServices starts one such goroutine for every occurrence of a
    record in StartupServices, that is one for every tag the record
    provides, so a record with several tags is marked as often. *)
Theorem launcher_marks_provides (l : nat) (sv : Service) (w : World) :
  heap w !! l = Some sv ->
  LoadedServices w !! Name sv = Some l ->
  exists (w' : World) (pre : list Event),
    launcher env (Some l) w = Ok tt w' /\
    trace w' = trace w ++ pre ++ map EvMark (Provides sv) /\
    forallb (fun e => negb (isMark e)) pre = true /\
    startedTypes w' =
      fold_left (fun m t => <[t := true]> m) (Provides sv) (startedTypes w) /\
    (forall t, In t (Provides sv) -> startedTypes w' !! t = Some true).
Proof.
  intros Hh HL.
  destruct (launcher_run l sv w Hh HL) as (n & w2 & pre & _ & Hst & Htr & Hpre & _ & Hrun).
  eexists. exists (concat (repeat [EvPoll; EvSleep 2] n) ++ pre).
  split; [exact Hrun|]. go_red.
  rewrite Htr, polled_trace, Hst, <- !app_assoc.
  split; [reflexivity|]. split; [|split; [reflexivity|]].
  - rewrite forallb_app, Hpre, polls_are_no_marks. reflexivity.
  - intros t Hin. apply marked_all. exact Hin.
Qed.

(** What a launcher goroutine leaves of the registry: the entries, the
    names and the Provides of all records. *)
Lemma startStep_frame (l : nat) (sv : Service) (w w' : World) :
  heap w !! l = Some sv ->
  LoadedServices w !! Name sv = Some l ->
  startStep env (Some l) w = Ok tt w' ->
  LoadedServices w' = LoadedServices w /\
  (exists sv', heap w' !! l = Some sv' /\ Name sv' = Name sv /\ Provides sv' = Provides sv) /\
  (forall l2, l2 <> l -> heap w' !! l2 = heap w !! l2).
Proof.
  intros Hh HL.
  assert (Hskip : Ok tt w = Ok tt w' ->
                  LoadedServices w' = LoadedServices w /\
                  (exists sv', heap w' !! l = Some sv' /\ Name sv' = Name sv /\
                               Provides sv' = Provides sv) /\
                  (forall l2, l2 <> l -> heap w' !! l2 = heap w !! l2)).
  { intros H. inversion H; subst w'. split; [reflexivity|].
    split; [exists sv; repeat split; exact Hh | reflexivity]. }
  unfold startStep. rewrite (bind_Ok _ _ w w sv) by (unfold deref; rewrite Hh; reflexivity).
  destruct (RunState_eqb (State sv) NotStarted) eqn:HS; cbn [andb]; [|exact Hskip].
  destruct (AutoStart sv); [|exact Hskip].
  apply RunState_eqb_eq in HS.
  destruct (String.eqb (Type_ sv) "oneshot" || String.eqb (Type_ sv) "forking").
  - destruct (os_run env (Startup sv) true (clock w)) as [err d] eqn:Hrun.
    rewrite (bind_Ok _ _ _ _ _ (Service_Start_run env sv w l sv err d HS HL Hh Hrun)).
    unfold ret. intros H. inversion H; subst w'. go_red.
    split; [reflexivity|]. split.
    + eexists. rewrite lookup_insert_eq. repeat split.
    + intros l2 Hne. apply lookup_insert_ne. congruence.
  - destruct (String.eqb (Type_ sv) "simple"); [|exact Hskip].
    unfold goStartSimple. go_run with Hh. intros H. inversion H; subst w'. go_red.
    split; [reflexivity|]. split; [exists sv; repeat split; exact Hh | reflexivity].
Qed.







End LauncherFacts.

(** ** The parser *)

Lemma HasPrefix_Type (line : string) :
  HasPrefix line "Type:" = true ->
  exists rest, line = "Type:" +:+ rest.
Proof.
  unfold HasPrefix. intros H.
  repeat (destruct line as [|? line]; [discriminate H|];
          cbn [String.prefix] in H;
          match type of H with
          | (if ?d then _ else _) = true => destruct d as [<-|]; [|discriminate H]
          end).
  exists line. reflexivity.
Qed.

Lemma substring_all (r : string) : substring 0 (String.length r) r = r.
Proof.
  induction r as [|c r IH]; [reflexivity|].
  cbn [String.length substring]. rewrite IH. reflexivity.
Qed.

Lemma prefix_empty (r : string) : String.prefix "" r = true.
Proof. destruct r; reflexivity. Qed.

Ltac same_char :=
  repeat match goal with
         | |- context [ascii_dec ?a ?a] =>
             destruct (ascii_dec a a) as [_|Hn]; [|exfalso; apply Hn; reflexivity]
         end.

Ltac other_char :=
  repeat match goal with
         | |- context [ascii_dec ?a ?b] => destruct (ascii_dec a b); [discriminate|]
         end.

Lemma TrimPrefix_Type (rest : string) : TrimPrefix ("Type:" +:+ rest) "Type:" = rest.
Proof.
  change ("Type:" +:+ rest)
    with (String "T" (String "y" (String "p" (String "e" (String ":" rest))))).
  unfold TrimPrefix, HasPrefix. cbn [String.prefix String.length substring].
  same_char. rewrite prefix_empty.
  replace (S (S (S (S (S (String.length rest))))) - 5)%nat with (String.length rest) by lia.
  apply substring_all.
Qed.

(** A line [Type: X] is no other directive. *)
Lemma parseLine_Type (rest : string) (s : Service) :
  parseLine ("Type:" +:+ rest) s =
    if String.eqb (Type_ s) "" then
      let serviceType := TrimSpace rest in
      if String.eqb serviceType "simple" then (set_Type "simple" s, None)
      else if String.eqb serviceType "forking" then (set_Type "forking" s, None)
      else if String.eqb serviceType "oneshot" then (set_Type "oneshot" s, None)
      else (set_Type "simple" s, None)
    else (s, None).
Proof.
  unfold parseLine. rewrite TrimPrefix_Type.
  change ("Type:" +:+ rest)
    with (String "T" (String "y" (String "p" (String "e" (String ":" rest))))).
  unfold HasPrefix. cbn [String.prefix].
  other_char. same_char. rewrite prefix_empty. reflexivity.
Qed.

(** No line changes a Type that is set, and a Type that gets set is valid. *)
Lemma parseLine_keeps_valid (line : string) (s : Service) :
  validType (Type_ s) -> validType (Type_ (fst (parseLine line s))).
Proof.
  intros Hv.
  assert (Hne : String.eqb (Type_ s) "" = false).
  { apply String.eqb_neq. intros E. rewrite E in Hv.
    destruct Hv as [H|[H|H]]; discriminate H. }
  unfold parseLine. rewrite Hne.
  repeat match goal with
         | |- context [if ?b then _ else _] => destruct b
         end; exact Hv.
Qed.

Lemma parseLine_unset_or_valid (line : string) (s : Service) :
  Type_ s = "" \/ validType (Type_ s) ->
  Type_ (fst (parseLine line s)) = "" \/ validType (Type_ (fst (parseLine line s))).
Proof.
  intros [He|Hv]; [|right; apply parseLine_keeps_valid; exact Hv].
  unfold parseLine, validType.
  repeat match goal with
         | |- context [if ?b then _ else _] => destruct b
         end; cbn [fst Type_ set_Type set_Needs set_Provides set_Startup set_Shutdown
                   set_Name set_Description set_PIDFile]; tauto.
Qed.

Lemma parseLine_Type_valid (rest : string) (s : Service) :
  Type_ s = "" \/ validType (Type_ s) ->
  validType (Type_ (fst (parseLine ("Type:" +:+ rest) s))).
Proof.
  intros [He|Hv]; [|apply parseLine_keeps_valid; exact Hv].
  rewrite parseLine_Type, He. cbn [String.eqb]. unfold validType.
  repeat match goal with
         | |- context [if ?b then _ else _] => destruct b
         end; cbn [fst Type_ set_Type]; tauto.
Qed.

Lemma append_assoc (a b c : string) : (a +:+ b) +:+ c = a +:+ (b +:+ c).
Proof.
  induction a as [|x a IH]; [reflexivity|].
  change (String x (a +:+ b) +:+ c = String x (a +:+ (b +:+ c))).
  change (String x ((a +:+ b) +:+ c) = String x (a +:+ (b +:+ c))).
  rewrite IH. reflexivity.
Qed.

Lemma readUntil_shorter (delim : ascii) (data line rest : string) :
  readUntil delim data = Some (line, rest) ->
  (String.length rest < String.length data)%nat.
Proof.
  revert line. induction data as [|c data IH]; intros line H; [discriminate H|].
  cbn [readUntil] in H. destruct (Ascii.eqb c delim).
  - inversion H; subst. cbn [String.length]. lia.
  - destruct (readUntil delim data) as [[line' rest']|]; [|discriminate H].
    inversion H; subst. specialize (IH line' eq_refl). cbn [String.length]. lia.
Qed.

(** Reading a line of a text that starts with whole lines leaves a text
    that starts with whole lines. *)
Lemma readUntil_whole_lines (p rest : string) :
  exists line pre1,
    readUntil "010" (p +:+ nl +:+ rest) = Some (line, pre1 +:+ rest) /\
    (pre1 = "" \/ exists p1, pre1 = p1 +:+ nl).
Proof.
  induction p as [|c p IH].
  - exists nl, "". split; [reflexivity|left; reflexivity].
  - change (String c p +:+ nl +:+ rest) with (String c (p +:+ nl +:+ rest)).
    cbn [readUntil]. destruct (Ascii.eqb c "010").
    + exists (String c ""), (p +:+ nl).
      split; [|right; exists p; reflexivity].
      rewrite append_assoc. reflexivity.
    + destruct IH as (line & pre1 & Hr & Hp). rewrite Hr.
      exists (String c line), pre1. split; [reflexivity|exact Hp].
Qed.

(** The line read from a text that starts with [Type:] starts with it. *)
Lemma ReadString_Type (post : string) (e : error) :
  exists rest err rd',
    ReadString (mkReader ("Type:" +:+ post) e) "010" = ("Type:" +:+ rest, err, rd').
Proof.
  unfold ReadString. cbn [rd_data rd_err].
  change ("Type:" +:+ post)
    with (String "T" (String "y" (String "p" (String "e" (String ":" post))))).
  cbn [readUntil Ascii.eqb Bool.eqb].
  destruct (readUntil "010" post) as [[line rest]|].
  - exists line, None, (mkReader rest e). reflexivity.
  - exists post, (Some e), (mkReader "" e). reflexivity.
Qed.

Section ParserFacts.

Variable IsCustASCII : string -> bool.

(** The loop of ParseConfig returns: the fuel needed is one more than the
    number of bytes to read. *)
Lemma ParseConfig_loop_total (filename : string) (fuel : nat) :
  forall (rd : Reader) (s : Service),
    (String.length (rd_data rd) < fuel)%nat ->
    exists res, ParseConfig_loop IsCustASCII fuel rd s filename = Some res.
Proof.
  induction fuel as [|fuel IH]; intros rd s Hlen; [lia|].
  cbn [ParseConfig_loop]. unfold ReadString.
  destruct (readUntil "010" (rd_data rd)) as [[line rest]|] eqn:Hr.
  - apply IH. cbn [rd_data]. apply readUntil_shorter in Hr. lia.
  - destruct (rd_err rd); try (eexists; reflexivity).
    destruct (checkSanity IsCustASCII _ filename); eexists; reflexivity.
Qed.

Lemma ParseConfig_loop_keeps_valid (filename : string) (fuel : nat) :
  forall (rd : Reader) (s s' : Service),
    validType (Type_ s) ->
    ParseConfig_loop IsCustASCII fuel rd s filename = Some (s', None) ->
    validType (Type_ s').
Proof.
  induction fuel as [|fuel IH]; intros rd s s' Hv H; [discriminate H|].
  cbn [ParseConfig_loop] in H.
  destruct (ReadString rd "010") as [[line err] rd'].
  destruct err as [e|].
  - destruct e; try discriminate H.
    destruct (checkSanity IsCustASCII _ filename); [discriminate H|].
    inversion H; subst. apply parseLine_keeps_valid. exact Hv.
  - apply (IH rd' _ s' (parseLine_keeps_valid line s Hv) H).
Qed.

(** From a text that starts with [Type:] on, the Type is valid. *)
Lemma ParseConfig_loop_at_Type (filename : string) (fuel : nat) (post : string) (e : error)
      (s s' : Service) :
  Type_ s = "" \/ validType (Type_ s) ->
  ParseConfig_loop IsCustASCII fuel (mkReader ("Type:" +:+ post) e) s filename = Some (s', None) ->
  validType (Type_ s').
Proof.
  intros Hinv H. destruct fuel as [|fuel]; [discriminate H|].
  cbn [ParseConfig_loop] in H.
  destruct (ReadString_Type post e) as (rest & err & rd' & Hread). rewrite Hread in H.
  pose proof (parseLine_Type_valid rest s Hinv) as Hv.
  destruct err as [e'|].
  - destruct e'; try discriminate H.
    destruct (checkSanity IsCustASCII _ filename); [discriminate H|].
    inversion H; subst. exact Hv.
  - apply (ParseConfig_loop_keeps_valid filename fuel rd' _ s' Hv H).
Qed.

(** The whole lines before it are read first. *)
Lemma ParseConfig_loop_skips (filename : string) (rest : string) (e : error)
      (res : Service * option error) (fuel : nat) :
  forall (pre : string) (s : Service),
    pre = "" \/ (exists p, pre = p +:+ nl) ->
    Type_ s = "" \/ validType (Type_ s) ->
    ParseConfig_loop IsCustASCII fuel (mkReader (pre +:+ rest) e) s filename = Some res ->
    exists fuel' s',
      (Type_ s' = "" \/ validType (Type_ s')) /\
      ParseConfig_loop IsCustASCII fuel' (mkReader rest e) s' filename = Some res.
Proof.
  induction fuel as [|fuel IH]; intros pre s Hpre Hinv H; [discriminate H|].
  destruct Hpre as [->|[p ->]].
  - exists (S fuel), s. split; [exact Hinv|exact H].
  - cbn [ParseConfig_loop] in H. unfold ReadString in H. cbn [rd_data rd_err] in H.
    destruct (readUntil_whole_lines p rest) as (line & pre1 & Hr & Hp).
    rewrite append_assoc in H. rewrite Hr in H.
    apply (IH pre1 _ Hp (parseLine_unset_or_valid line s Hinv) H).
Qed.

End ParserFacts.

(** C10, as the code has it.  A line [Type: X] with X none of simple,
    forking and oneshot, parsed while the Type of the service is not set,
    sets it to simple and is no error; parsed when the Type is set, it
    leaves the service as it is.  ParseConfig returns for every input, and
    a service parsed from a text with a line that starts with [Type:] has
    its Type among simple, forking and oneshot. *)
Theorem Type_directive_coerced
        (IsCustASCII : string -> bool) (line : string) (s : Service)
        (fuel : nat) (pre post : string) (e : error) (filename : string) (parsed : Service) :
  (HasPrefix line "Type:" = true -> ~ validType (typeOf line) -> Type_ s = "" ->
   parseLine line s = (set_Type "simple" s, None)) /\
  (HasPrefix line "Type:" = true -> Type_ s <> "" -> parseLine line s = (s, None)) /\
  (exists res,
     ParseConfig IsCustASCII (S (String.length (pre +:+ "Type:" +:+ post)))
       (mkReader (pre +:+ "Type:" +:+ post) e) filename = Some res) /\
  (pre = "" \/ (exists p, pre = p +:+ nl) ->
   ParseConfig IsCustASCII fuel (mkReader (pre +:+ "Type:" +:+ post) e) filename
     = Some (parsed, None) ->
   validType (Type_ parsed)).
Proof.
  split; [|split; [|split]].
  - intros Hp Hinv He. destruct (HasPrefix_Type line Hp) as (rest & ->).
    unfold typeOf, validType in Hinv.
    rewrite parseLine_Type, He. cbn [String.eqb].
    rewrite TrimPrefix_Type in Hinv.
    destruct (String.eqb_spec (TrimSpace rest) "simple") as [E|_]; [tauto|].
    destruct (String.eqb_spec (TrimSpace rest) "forking") as [E|_]; [tauto|].
    destruct (String.eqb_spec (TrimSpace rest) "oneshot") as [E|_]; [tauto|].
    reflexivity.
  - intros Hp Hne. destruct (HasPrefix_Type line Hp) as (rest & ->).
    rewrite parseLine_Type. apply String.eqb_neq in Hne. rewrite Hne. reflexivity.
  - apply ParseConfig_loop_total. cbn [rd_data]. lia.
  - intros Hpre H. unfold ParseConfig in H.
    destruct (ParseConfig_loop_skips IsCustASCII filename _ e _ fuel pre zeroService
                Hpre (or_introl eq_refl) H) as (fuel' & s' & Hinv & H').
    apply (ParseConfig_loop_at_Type IsCustASCII filename fuel' post e s' parsed Hinv H').
Qed.

(** * The properties at concrete inputs *)


(** The launcher of web when its Startup command fails. *)
Lemma launcher_marks_provides_witness :
  exists (w' : World) (pre : list Event),
    launcher Examples.failing (Some 1%nat) (Examples.world Examples.web) = Ok tt w' /\
    trace w' = pre ++ [EvMark "net"; EvMark "dns"] /\
    startedTypes w' !! "net" = Some true /\ startedTypes w' !! "dns" = Some true.
Proof.
  destruct (launcher_marks_provides Examples.failing 1 Examples.web (Examples.world Examples.web))
    as (w' & pre & Hrun & Htr & _ & _ & Hall); [reflexivity | reflexivity |].
  exists w', pre. split; [exact Hrun|]. split; [exact Htr|].
  split; apply Hall; cbn; tauto.
Defined.

(** C2, as stated, fails: StartServices on the index in which the loader
    has registered the one service web, which provides net and dns, marks
    every tag of web twice, once for each entry of web in the index. *)
Lemma StartServices_marks_twice :
  exists w',
    StartServices Examples.quiet (register Examples.web ∅) (Examples.world Examples.web)
      = Ok tt w' /\
    List.filter isMark (trace w') = [EvMark "net"; EvMark "dns"; EvMark "net"; EvMark "dns"] /\
    timesMarked "net" (trace w') <> 1%nat.
Proof.
  eexists. split; [vm_compute; reflexivity|]. split; [vm_compute; reflexivity|].
  vm_compute. discriminate.
Qed.

(** Start of db when the wait of the run reports "wait: no child processes". *)
Lemma Start_reap_race_witness :
  exists w',
    Service_Start Examples.reaped Examples.db (Examples.world Examples.db) = Ok None w' /\
    State <$> registryRecord "db" w' = Some Started.
Proof.
  destruct (Start_reap_race Examples.reaped Examples.db (Examples.world Examples.db)
              1 Examples.db (OSError "wait: no child processes" false) 3) as [Hreap _];
    [reflexivity | reflexivity | reflexivity | reflexivity |].
  destruct Hreap as (w' & Hrun & Hstate & _); [left; reflexivity|].
  exists w'. split; [exact Hrun | exact Hstate].
Defined.

(** Start of cron, which is Started, and CheckAndStartService of cron with
    the PID 999 in its PID file. *)
Lemma Start_refused_when_not_NotStarted_witness :
  Service_Start Examples.quiet Examples.cron (Examples.world Examples.cron)
    = Ok (Some (ErrorString "Service cron is already started")) (Examples.world Examples.cron) /\
  CheckAndStartService (Examples.pidfile "999") (Some 1%nat) (Examples.world Examples.cron)
    = Ok (Some (ErrorString "process cron already running as PID 999")) Examples.probed_cron.
Proof.
  split.
  - apply (Start_refused_when_not_NotStarted Examples.quiet Examples.cron None
             (Examples.world Examples.cron) (Examples.world Examples.cron) 0).
    discriminate.
  - destruct (Start_refused_when_not_NotStarted (Examples.pidfile "999") Examples.cron (Some 1%nat)
                (Examples.world Examples.cron) Examples.probed_cron 999) as [_ Hconflict].
    destruct Hconflict as (sv & Hd & Hrun & _); [reflexivity|].
    inversion Hd; subst sv. exact Hrun.
Defined.

(** StartSimple of tail at time 0, the process exiting with 1 after 10
    seconds. *)
Lemma StartSimple_failed_exit_not_stamped_witness :
  exists w' r',
    Service_StartSimple Examples.failing (set_State NotStarted Examples.tail)
      (Examples.world Examples.tail) = Ok tt w' /\
    registryRecord "tail" w' = Some r' /\
    State r' = Stopped /\ LastAction r' = Start /\ LastActionAt r' = 0 /\ clock w' = 10.
Proof.
  destruct (StartSimple_failed_exit_not_stamped Examples.failing
              (set_State NotStarted Examples.tail) (Examples.world Examples.tail)
              1 Examples.tail 4242 (ExitError "exit status 1") 10)
    as (w' & r' & Hrun & Hrec & HS & _ & _ & HA & HT & HC);
    [reflexivity | reflexivity | reflexivity | reflexivity |].
  exists w', r'. repeat split; assumption.
Defined.

(** ExecShutdown of the command false. *)
Lemma ExecShutdown_nonzero_exit_is_error_witness :
  exists w',
    ExecShutdown Examples.failing "false" (Examples.world Examples.tail)
      = Ok (Some (ExitError "exit status 1")) w'.
Proof.
  apply (ExecShutdown_nonzero_exit_is_error Examples.failing "false"
           (Examples.world Examples.tail) "exit status 1" 1).
  reflexivity.
Defined.

(** The probe of ntp when pgrep exits with 1. *)
Lemma probe_by_command_nonzero_exit_is_error_witness :
  exists w',
    checkIfProcessAlive Examples.failing (Some 1%nat) (Examples.world Examples.ntp)
      = Ok (false, 0, Some (ExitError "exit status 1")) w'.
Proof.
  apply (probe_by_command_nonzero_exit_is_error Examples.failing 1 Examples.ntp
           (Examples.world Examples.ntp) "exit status 1" 1).
  - reflexivity.
  - reflexivity.
  - discriminate.
  - reflexivity.
Defined.

(** The probe of cron with "  4242" and a line feed in the PID file. *)
Lemma probe_by_pidfile_witness :
  exists w',
    checkIfProcessAlive (Examples.pidfile ("  4242" +:+ nl)) (Some 1%nat)
      (Examples.world Examples.cron) = Ok (true, 4242, None) w'.
Proof.
  destruct (probe_by_pidfile (Examples.pidfile ("  4242" +:+ nl)) 1 Examples.cron
              (Examples.world Examples.cron)) as (_ & Hread & _);
    [reflexivity | discriminate |].
  specialize (Hread ("  4242" +:+ nl) eq_refl eq_refl).
  destruct Hread as (_ & _ & Halive).
  apply Halive; [discriminate | reflexivity].
Defined.

(** C8, as stated, fails: the contents "-5" of the PID file are not a
    positive integer, and the probe returns no error but alive with the
    PID -5. *)
Lemma probe_takes_negative_pid :
  positivePid "-5" = false /\
  exists w',
    checkIfProcessAlive (Examples.pidfile "-5") (Some 1%nat) (Examples.world Examples.cron)
      = Ok (true, -5, None) w'.
Proof.
  split; [reflexivity|]. eexists. vm_compute. reflexivity.
Qed.


(** The line "Type: bogus", alone and in a service file. *)
Lemma Type_directive_coerced_witness :
  parseLine "Type: bogus" zeroService = (set_Type "simple" zeroService, None) /\
  exists parsed,
    ParseConfig (fun _ => true) 40 (mkReader ("Name: a" +:+ nl +:+ "Type: bogus" +:+ nl) EOF) "a.service"
      = Some (parsed, None) /\
    validType (Type_ parsed).
Proof.
  destruct (Type_directive_coerced (fun _ => true) "Type: bogus" zeroService 40
              ("Name: a" +:+ nl) (" bogus" +:+ nl) EOF "a.service"
              (set_Type "simple" (set_Name "a" zeroService)))
    as (Hcoerce & _ & _ & Hparsed).
  split.
  - apply Hcoerce; [reflexivity | | reflexivity].
    intros [H|[H|H]]; vm_compute in H; discriminate H.
  - exists (set_Type "simple" (set_Name "a" zeroService)).
    split; [reflexivity|]. apply Hparsed; [right; exists "Name: a"; reflexivity | reflexivity].
Defined.

(** C10, as stated, fails: a line [Type: bogus] parsed after the Type
    was set to forking does not make it simple. *)
Lemma later_Type_line_not_coerced :
  HasPrefix "Type: bogus" "Type:" = true /\
  ~ validType (typeOf "Type: bogus") /\
  Type_ (fst (parseLine "Type: bogus" (set_Type "forking" zeroService))) <> "simple" /\
  ParseConfig (fun _ => true) 40 (mkReader ("Type: forking" +:+ nl +:+ "Type: bogus" +:+ nl) EOF)
    "a.service" = Some (set_Type "forking" zeroService, None).
Proof.
  split; [reflexivity|]. split; [|split; [|reflexivity]].
  - intros [H|[H|H]]; vm_compute in H; discriminate H.
  - vm_compute. discriminate.
Qed.

(** * Further properties of the code *)

(** ** NeedsSatisfied and the marking *)

Lemma index_true (m : gmap string bool) (st : ServiceType) :
  index m st = true <-> m !! st = Some true.
Proof.
  unfold index. destruct (m !! st) as [[|]|]; cbn; split; intros H;
    try reflexivity; try discriminate H.
Qed.

Lemma needsLoop_iff (needs : list ServiceType) (m : gmap string bool) :
  needsLoop needs m = true <-> forall st, In st needs -> m !! st = Some true.
Proof.
  induction needs as [|st needs IH]; cbn [needsLoop].
  - split; [intros _ st []|reflexivity].
  - destruct (index m st) eqn:Hi; cbn [negb].
    + apply index_true in Hi. rewrite IH. split.
      * intros H st' [<-|Hin]; [exact Hi|apply H; exact Hin].
      * intros H st' Hin. apply H. right. exact Hin.
    + split; [discriminate|]. intros H.
      assert (Ht : index m st = true) by (apply index_true, H; left; reflexivity).
      rewrite Ht in Hi. discriminate Hi.
Qed.

(** X1. NeedsSatisfied is true exactly when every tag of Needs is in the
    map with the value true; a tag that is absent, or present with false,
    makes it false, and a service without Needs is always satisfied. *)
Theorem NeedsSatisfied_iff (s : Service) (m : gmap string bool) :
  (Service_NeedsSatisfied s m = true <->
   forall st, In st (Needs s) -> m !! st = Some true) /\
  (Needs s = [] -> Service_NeedsSatisfied s m = true).
Proof.
  split; [apply needsLoop_iff|].
  intros H. unfold Service_NeedsSatisfied. rewrite H. reflexivity.
Qed.

Lemma marked_or_kept (ts : list ServiceType) (st : ServiceType) :
  forall m : gmap string bool,
    In st ts \/ m !! st = Some true ->
    fold_left (fun m t => <[t := true]> m) ts m !! st = Some true.
Proof.
  intros m [Hin|Hm]; [apply marked_all; exact Hin | apply marked_stays; exact Hm].
Qed.

(** X2. The marking of a list of tags satisfies every service whose Needs
    are each among the tags or already marked: marking only adds, it
    never takes a started capability back. *)
Theorem markProvides_satisfies (s : Service) (ts : list ServiceType) (w : World) :
  (forall st, In st (Needs s) -> In st ts \/ startedTypes w !! st = Some true) ->
  exists w',
    markProvides ts w = Ok tt w' /\
    Service_NeedsSatisfied s (startedTypes w') = true /\
    (forall st, startedTypes w !! st = Some true -> startedTypes w' !! st = Some true).
Proof.
  intros H. eexists. split; [apply markProvides_run|]. go_red. split.
  - apply needsLoop_iff. intros st Hin. apply marked_or_kept. apply H. exact Hin.
  - intros st Hst. apply marked_stays. exact Hst.
Qed.

(** ** The launcher *)

Lemma waitNeeds_first (env : Env) (l : nat) (sv : Service) (w : World) :
  heap w !! l = Some sv ->
  satAt env sv w 0 = true ->
  waitNeeds env 60 (Some l) false 0 w = Ok (true, 1%nat) (polled 1 w).
Proof.
  intros Hh Hsat. rewrite (waitNeeds_step env 59 l sv 0 w Hh) by lia.
  rewrite Hsat. apply waitNeeds_satisfied.
Qed.

Lemma satAt_0 (env : Env) (sv : Service) (w : World) :
  satAt env sv w 0 = Service_NeedsSatisfied sv (visible env w (clock w)).
Proof.
  unfold satAt. replace (clock w + 2 * Z.of_nat 0) with (clock w) by lia. reflexivity.
Qed.

(** X3. A service whose Needs are all marked when its launcher begins (in
    particular a service without Needs) is polled once, and the launcher
    still sleeps 2 seconds before it goes on to the start step. *)
Theorem wait_satisfied_at_once (env : Env) (l : nat) (sv : Service) (w : World) :
  heap w !! l = Some sv ->
  (forall st, In st (Needs sv) -> visible env w (clock w) !! st = Some true) ->
  waitNeeds env 60 (Some l) false 0 w = Ok (true, 1%nat) (polled 1 w) /\
  clock (polled 1 w) = clock w + 2 /\
  trace (polled 1 w) = trace w ++ [EvPoll; EvSleep 2] /\
  heap (polled 1 w) = heap w.
Proof.
  intros Hh Hneeds. split; [|split; [|split]].
  - apply (waitNeeds_first env l sv w Hh). rewrite satAt_0.
    apply needsLoop_iff. exact Hneeds.
  - rewrite polled_clock. lia.
  - rewrite polled_trace. reflexivity.
  - apply polled_heap.
Qed.

(** X4. When the launcher of a provider has run, the wait loop of a
    service that needs only tags the provider provides ends with its first
    poll, whatever happened at the start of the provider. *)
Theorem dependent_after_provider
        (env : Env) (l1 l2 : nat) (p d : Service) (w : World) :
  heap w !! l1 = Some p ->
  LoadedServices w !! Name p = Some l1 ->
  heap w !! l2 = Some d ->
  l2 <> l1 ->
  (forall st, In st (Needs d) -> In st (Provides p)) ->
  exists w1,
    launcher env (Some l1) w = Ok tt w1 /\
    heap w1 !! l2 = Some d /\
    waitNeeds env 60 (Some l2) false 0 w1 = Ok (true, 1%nat) (polled 1 w1).
Proof.
  intros Hp HL Hd Hne Hneeds.
  destruct (launcher_run env l1 p w Hp HL) as (n & w2 & pre & Hstart & Hst & _ & _ & _ & Hrun).
  assert (Hp1 : heap (polled n w) !! l1 = Some p) by (rewrite polled_heap; exact Hp).
  assert (HL1 : LoadedServices (polled n w) !! Name p = Some l1)
    by (rewrite polled_LoadedServices; exact HL).
  destruct (startStep_frame env l1 p (polled n w) w2 Hp1 HL1 Hstart) as (_ & _ & Hother).
  eexists. split; [exact Hrun|].
  assert (Hd1 : heap w2 !! l2 = Some d).
  { rewrite (Hother l2 Hne), polled_heap. exact Hd. }
  split; [exact Hd1|].
  apply (waitNeeds_first env l2 d); [exact Hd1|].
  rewrite satAt_0. apply needsLoop_iff. intros st Hin.
  unfold visible. go_red. apply lookup_union_Some_l.
  apply marked_all. apply Hneeds. exact Hin.
Qed.

Lemma startStep_skip (env : Env) (l : nat) (sv : Service) (w : World) :
  heap w !! l = Some sv ->
  State sv <> NotStarted \/ AutoStart sv = false \/
  (Type_ sv <> "oneshot" /\ Type_ sv <> "forking" /\ Type_ sv <> "simple") ->
  startStep env (Some l) w = Ok tt w.
Proof.
  intros Hh Hskip. unfold startStep.
  rewrite (bind_Ok _ _ w w sv) by (unfold deref; rewrite Hh; reflexivity).
  destruct Hskip as [HS|[HA|(H1 & H2 & H3)]].
  - apply RunState_eqb_neq in HS. rewrite HS. reflexivity.
  - rewrite HA, andb_false_r. reflexivity.
  - apply String.eqb_neq in H1. apply String.eqb_neq in H2. apply String.eqb_neq in H3.
    rewrite H1, H2, H3. cbn [orb].
    destruct (RunState_eqb (State sv) NotStarted && AutoStart sv); reflexivity.
Qed.

(** X5. The launcher of a record that is not NotStarted, or not AutoStart,
    or of a type other than oneshot, forking and simple, starts nothing:
    it runs no command, starts no goroutine and changes no record.  It
    still waits for the Needs and then marks the Provides of the record
    as started. *)
Theorem launcher_marks_without_start (env : Env) (l : nat) (sv : Service) (w : World) :
  heap w !! l = Some sv ->
  State sv <> NotStarted \/ AutoStart sv = false \/
  (Type_ sv <> "oneshot" /\ Type_ sv <> "forking" /\ Type_ sv <> "simple") ->
  exists (w' : World) (n : nat),
    launcher env (Some l) w = Ok tt w' /\
    (1 <= n <= 60)%nat /\
    heap w' = heap w /\ LoadedServices w' = LoadedServices w /\ spawned w' = spawned w /\
    trace w' = trace w ++ concat (repeat [EvPoll; EvSleep 2] n) ++ map EvMark (Provides sv) /\
    (forall t, In t (Provides sv) -> startedTypes w' !! t = Some true).
Proof.
  intros Hh Hskip.
  destruct (waitNeeds_run env l sv 60 0 w Hh eq_refl) as (sat & n & Hwait & Hle & Hpos & _).
  assert (Hh1 : heap (polled n w) !! l = Some sv) by (rewrite polled_heap; exact Hh).
  eexists. exists n. split.
  - unfold launcher. rewrite (bind_Ok _ _ _ _ _ Hwait).
    rewrite (bind_Ok _ _ _ _ _ (startStep_skip env l sv (polled n w) Hh1 Hskip)).
    rewrite (bind_Ok _ _ (polled n w) (polled n w) sv) by (unfold deref; rewrite Hh1; reflexivity).
    apply markProvides_run.
  - go_red. split; [lia|]. split; [apply polled_heap|].
    split; [apply polled_LoadedServices|]. split; [apply polled_spawned|].
    split; [rewrite polled_trace, <- app_assoc; reflexivity|].
    intros t Hin. apply marked_all. exact Hin.
Qed.

(** ** Start and StartSimple *)

(** X6. Start of a NotStarted service whose registry record exists runs
    the Startup command once, in a process group of its own, and never
    leaves the record in Starting: the record ends Started with a nil
    result or Errored with the error of the run as result.  A run without
    error always gives Started.  LastAction is Start, LastActionAt the time
    the run ended, and the other fields of the record are kept. *)
Theorem Start_ends_Started_or_Errored
        (env : Env) (s : Service) (w : World) (l : nat) (r : Service)
        (err : option error) (d : Z) :
  State s = NotStarted ->
  LoadedServices w !! Name s = Some l ->
  heap w !! l = Some r ->
  os_run env (Startup s) true (clock w) = (err, d) ->
  exists (res : option error) (w' : World) (r' : Service),
    Service_Start env s w = Ok res w' /\
    registryRecord (Name s) w' = Some r' /\
    (res = None /\ State r' = Started \/ res = err /\ res <> None /\ State r' = Errored) /\
    (err = None -> res = None) /\
    LastAction r' = Start /\ LastActionAt r' = clock w + d /\ clock w' = clock w + d /\
    trace w' = trace w ++ [EvRun (Startup s) true] /\
    spawned w' = spawned w /\ startedTypes w' = startedTypes w /\
    Name r' = Name r /\ Provides r' = Provides r /\ Needs r' = Needs r /\
    Type_ r' = Type_ r /\ LastKnownPID r' = LastKnownPID r /\ LastMessage r' = LastMessage r.
Proof.
  intros HS HL Hh Hrun.
  pose proof (Service_Start_run env s w l r err d HS HL Hh Hrun) as Hgo.
  eexists. eexists. eexists. split; [exact Hgo|].
  split; [unfold registryRecord; go_red; rewrite HL; apply lookup_insert_eq|].
  go_red. split; [|split; [intros ->; reflexivity | repeat split]].
  destruct err as [e|]; cbn [startOutcome]; [|left; split; reflexivity].
  destruct (String.eqb (Error e) errWaitNoChild || String.eqb (Error e) errWaitIDNoChild);
    cbn [fst snd]; [left; split; reflexivity | right].
  split; [reflexivity|]. split; [discriminate | reflexivity].
Qed.

(** X7. Start can be done once: after a Start from NotStarted, whatever
    its outcome, a Start of the registry record is refused with the error
    that reports its state, and changes nothing. *)
Theorem Start_not_repeatable
        (env : Env) (s : Service) (w : World) (l : nat) (r : Service) :
  State s = NotStarted ->
  LoadedServices w !! Name s = Some l ->
  heap w !! l = Some r ->
  exists (res : option error) (w' : World) (r' : Service),
    Service_Start env s w = Ok res w' /\
    registryRecord (Name s) w' = Some r' /\
    forall env' : Env,
      Service_Start env' r' w' =
        Ok (Some (ErrorString ("Service " +:+ Name r' +:+ " is " +:+ RunState_String (State r')))) w'.
Proof.
  intros HS HL Hh.
  destruct (os_run env (Startup s) true (clock w)) as [err d] eqn:Hrun.
  pose proof (Service_Start_run env s w l r err d HS HL Hh Hrun) as Hgo.
  eexists. eexists. eexists. split; [exact Hgo|].
  split; [unfold registryRecord; go_red; rewrite HL; apply lookup_insert_eq|].
  intros env'. unfold Service_Start. go_red.
  destruct (fst (startOutcome err)) eqn:Hout; try reflexivity;
    exfalso; destruct err as [e|]; cbn [startOutcome] in Hout;
    try destruct (String.eqb (Error e) errWaitNoChild || String.eqb (Error e) errWaitIDNoChild);
    discriminate Hout.
Qed.

(** X8. A service whose name is not in the registry brings the program
    down: Start (from NotStarted), StartSimple, CheckAndStopService and
    the goroutine of StartServices all panic on the nil entry of
    LoadedServices. *)
Theorem unregistered_name_panics (env : Env) (s : Service) (w : World) :
  LoadedServices w !! Name s = None ->
  (State s = NotStarted -> Service_Start env s w = Panic) /\
  Service_StartSimple env s w = Panic /\
  (forall lp, heap w !! lp = Some s -> CheckAndStopService env (Some lp) w = Panic) /\
  (forall rest, launchAll env (s :: rest) w = Panic).
Proof.
  intros HL. split; [|split; [|split]].
  - intros HS. unfold Service_Start. rewrite HS. cbn [RunState_eqb negb].
    go_run with HL. reflexivity.
  - unfold Service_StartSimple. go_run with HL. reflexivity.
  - intros lp Hp. unfold CheckAndStopService. go_run with Hp HL. reflexivity.
  - intros rest. cbn [launchAll]. unfold launcher, bind, loaded. rewrite HL.
    cbn [waitNeeds Bool.eqb Nat.ltb Nat.leb andb]. unfold poll, bind, deref. reflexivity.
Qed.

(** X25. StartSimple has no guard on the state: on any registered
    service it launches the Startup command.  When the process is launched
    and exits without error, StartSimple has launched and waited once,
    and the record is Stopped with LastKnownPID 0 and LastAction Stop,
    stamped with the time of the exit. *)
Theorem StartSimple_runs_to_Stopped
        (env : Env) (s : Service) (w : World) (l : nat) (r : Service) (pid d : Z) :
  LoadedServices w !! Name s = Some l ->
  heap w !! l = Some r ->
  os_start env (Startup s) (clock w) = (None, pid) ->
  os_wait env pid (clock w) = (None, d) ->
  exists w' r',
    Service_StartSimple env s w = Ok tt w' /\
    registryRecord (Name s) w' = Some r' /\
    trace w' = trace w ++ [EvStartProc (Startup s); EvWait pid] /\
    State r' = Stopped /\ LastKnownPID r' = 0 /\
    LastAction r' = Stop /\ LastActionAt r' = clock w + d /\
    LastMessage r' = LastMessage r.
Proof.
  intros HL Hh Hstart Hwait.
  unfold Service_StartSimple. go_run with HL Hh Hstart Hwait.
  eexists. eexists. split; [reflexivity|].
  unfold registryRecord. go_red. rewrite HL, lookup_insert_eq.
  split; [reflexivity|]. rewrite <- app_assoc. repeat split.
Qed.

(** X26. When the Startup command of a simple service cannot be launched,
    StartSimple waits for nothing: the record is Errored with the error
    as LastMessage and LastKnownPID 0, and LastAction stays Start with
    the time of the attempt. *)
Theorem StartSimple_launch_fails
        (env : Env) (s : Service) (w : World) (l : nat) (r : Service) (pid : Z) (e : error) :
  LoadedServices w !! Name s = Some l ->
  heap w !! l = Some r ->
  os_start env (Startup s) (clock w) = (Some e, pid) ->
  exists w' r',
    Service_StartSimple env s w = Ok tt w' /\
    registryRecord (Name s) w' = Some r' /\
    trace w' = trace w ++ [EvStartProc (Startup s)] /\ clock w' = clock w /\
    State r' = Errored /\ LastKnownPID r' = 0 /\ LastMessage r' = Error e /\
    LastAction r' = Start /\ LastActionAt r' = clock w.
Proof.
  intros HL Hh Hstart.
  unfold Service_StartSimple. go_run with HL Hh Hstart.
  eexists. eexists. split; [reflexivity|].
  unfold registryRecord. go_red. rewrite HL, lookup_insert_eq.
  split; [reflexivity|]. repeat split.
Qed.

(** ** CheckAndStartService *)

(** X9. CheckAndStartService of a simple service without PIDFile and
    CheckAlive goes by the recorded state alone, without a look at the
    system: Started is refused as already running, and in any other state
    the StartSimple goroutine is started with a copy of the record and nil
    is returned, the record itself not yet changed. *)
Theorem CheckAndStart_simple_by_state (env : Env) (l : nat) (sv : Service) (w : World) :
  heap w !! l = Some sv ->
  PIDFile sv = "" ->
  CheckAlive sv = "" ->
  Type_ sv = "simple" ->
  (State sv = Started ->
   CheckAndStartService env (Some l) w =
     Ok (Some (ErrorString ("process " +:+ Name sv +:+ " already running"))) w) /\
  (State sv <> Started ->
   CheckAndStartService env (Some l) w = Ok None (with_spawned (spawned w ++ [sv]) w)).
Proof.
  intros Hh HP HC HT.
  assert (Hprobe : checkIfProcessAlive env (Some l) w
                   = Ok (RunState_eqb (State sv) Started, 0, None) w).
  { unfold checkIfProcessAlive. go_run with Hh. rewrite HP, HC, HT. reflexivity. }
  split; intros HS; unfold CheckAndStartService; rewrite (bind_Ok _ _ _ _ _ Hprobe).
  - rewrite HS. cbn [RunState_eqb andb Z.eqb negb]. go_run with Hh. reflexivity.
  - apply RunState_eqb_neq in HS. rewrite HS. cbn [andb].
    unfold goStartSimple. go_run with Hh. rewrite HT. cbn [String.eqb Ascii.eqb Bool.eqb].
    go_run with Hh. reflexivity.
Qed.

(** X10. For a service that is not simple and has neither PIDFile nor
    CheckAlive the probe cannot tell: it returns the error "cannot
    determine process state" (with alive = true), and CheckAndStartService
    returns that error and starts nothing, whatever the state of the
    service. *)
Theorem CheckAndStart_indeterminate (env : Env) (l : nat) (sv : Service) (w : World) :
  heap w !! l = Some sv ->
  PIDFile sv = "" ->
  CheckAlive sv = "" ->
  Type_ sv <> "simple" ->
  checkIfProcessAlive env (Some l) w
    = Ok (true, 0, Some (ErrorString "cannot determine process state")) w /\
  CheckAndStartService env (Some l) w
    = Ok (Some (ErrorString "cannot determine process state")) w.
Proof.
  intros Hh HP HC HT. apply String.eqb_neq in HT.
  assert (Hprobe : checkIfProcessAlive env (Some l) w
                   = Ok (true, 0, Some (ErrorString "cannot determine process state")) w).
  { unfold checkIfProcessAlive. go_run with Hh. rewrite HP, HC, HT. reflexivity. }
  split; [exact Hprobe|].
  unfold CheckAndStartService. rewrite (bind_Ok _ _ _ _ _ Hprobe). reflexivity.
Qed.

(** X11. CheckAndStartService drops the result of Start.  For a service
    that is not simple and that the probe reports not alive it returns
    nil: when the service is not NotStarted, Start refuses and nothing is
    started; when it is NotStarted and the Startup command fails, the
    record ends Errored, and the caller is told nothing of it. *)
Theorem CheckAndStart_drops_Start_error
        (env : Env) (l : nat) (sv : Service) (w w1 : World) (pid : Z)
        (e : error) (d : Z) :
  heap w !! l = Some sv ->
  LoadedServices w !! Name sv = Some l ->
  Type_ sv <> "simple" ->
  checkIfProcessAlive env (Some l) w = Ok (false, pid, None) w1 ->
  (State sv <> NotStarted -> CheckAndStartService env (Some l) w = Ok None w1) /\
  (State sv = NotStarted ->
   os_run env (Startup sv) true (clock w1) = (Some e, d) ->
   Error e <> errWaitNoChild -> Error e <> errWaitIDNoChild ->
   exists w',
     CheckAndStartService env (Some l) w = Ok None w' /\
     State <$> registryRecord (Name sv) w' = Some Errored).
Proof.
  intros Hh HL HT Hprobe. apply String.eqb_neq in HT.
  destruct (checkIfProcessAlive_frame env (Some l) w w1 _ Hprobe) as (Hheap & HLS & _).
  assert (Hh1 : heap w1 !! l = Some sv) by (rewrite Hheap; exact Hh).
  assert (HL1 : LoadedServices w1 !! Name sv = Some l) by (rewrite HLS; exact HL).
  assert (Hd1 : deref (Some l) w1 = Ok sv w1) by (unfold deref; rewrite Hh1; reflexivity).
  split.
  - intros HS. unfold CheckAndStartService. rewrite (bind_Ok _ _ _ _ _ Hprobe). cbn [andb].
    rewrite (bind_Ok _ _ _ _ _ Hd1), HT. rewrite (bind_Ok _ _ w1 w1 tt); [reflexivity|].
    rewrite (bind_Ok _ _ _ _ _ Hd1).
    unfold Service_Start. apply RunState_eqb_neq in HS. rewrite HS. reflexivity.
  - intros HS Hrun Hn1 Hn2.
    pose proof (Service_Start_run env sv w1 l sv (Some e) d HS HL1 Hh1 Hrun) as Hgo.
    eexists. split.
    + unfold CheckAndStartService. rewrite (bind_Ok _ _ _ _ _ Hprobe). cbn [andb].
      rewrite (bind_Ok _ _ _ _ _ Hd1), HT.
      erewrite (bind_Ok _ _ w1 _ tt); [reflexivity|].
      rewrite (bind_Ok _ _ _ _ _ Hd1), (bind_Ok _ _ _ _ _ Hgo). reflexivity.
    + unfold registryRecord. go_red. rewrite HL1, lookup_insert_eq.
      cbn [startOutcome]. apply String.eqb_neq in Hn1. apply String.eqb_neq in Hn2.
      rewrite Hn1, Hn2. reflexivity.
Qed.

(** ** The probe *)

Section ProbeMore.

Variable env : Env.

Ltac probe_case' :=
  match goal with
  | |- context [os_stat env ?p ?t] => destruct (os_stat env p t) as [[]|] eqn:?
  | |- context [os_readFile env ?p ?t] => destruct (os_readFile env p t) as [? [?|]] eqn:?
  | |- context [os_findProcess env ?p ?t] => destruct (os_findProcess env p t) eqn:?
  | |- context [Atoi ?x] => destruct (Atoi x) eqn:?
  | |- context [if ?b then _ else _] => destruct b eqn:?
  end.

Lemma probe_pidfile_no_run (l : nat) (sv : Service) (w w1 : World)
      (res : bool * Z * option error) :
  heap w !! l = Some sv ->
  PIDFile sv <> "" ->
  checkIfProcessAlive env (Some l) w = Ok res w1 ->
  clock w1 = clock w /\
  exists evs, trace w1 = trace w ++ evs /\ forallb notRun evs = true.
Proof.
  intros Hh HP. apply String.eqb_neq in HP.
  unfold checkIfProcessAlive, getProcessPid, processAliveByPid.
  go_unfold. rewrite Hh, HP. cbn [negb].
  repeat (go_red; rewrite ?Hh; try probe_case');
    intros H; inversion H; subst; go_red; (split; [reflexivity|]);
    rewrite <- ?app_assoc; eexists; split; reflexivity.
Qed.

End ProbeMore.

(** X12. The probe only looks: whatever it returns, it changes no record,
    no registry entry and no started capability and starts no goroutine;
    all it does is stat and read the PID file, look the PID up, or run the
    CheckAlive command.  With a PIDFile set it runs no command at all, so
    the CheckAlive command of such a service is never used. *)
Theorem probe_only_looks (env : Env) (l : nat) (sv : Service) (w w1 : World)
        (res : bool * Z * option error) :
  heap w !! l = Some sv ->
  checkIfProcessAlive env (Some l) w = Ok res w1 ->
  heap w1 = heap w /\ LoadedServices w1 = LoadedServices w /\
  startedTypes w1 = startedTypes w /\ spawned w1 = spawned w /\
  (exists evs, trace w1 = trace w ++ evs /\ forallb probeEvent evs = true) /\
  (PIDFile sv <> "" ->
   clock w1 = clock w /\
   exists evs, trace w1 = trace w ++ evs /\ forallb notRun evs = true).
Proof.
  intros Hh H.
  destruct (checkIfProcessAlive_frame env (Some l) w w1 res H) as (H1 & H2 & H3 & H4 & H5).
  repeat (split; [assumption|]).
  intros HP. apply (probe_pidfile_no_run env l sv w w1 res Hh HP H).
Qed.

(** X13. Behind a PID file that exists, every failure is an error of the
    probe and never the answer "not alive": a failed read of the file and
    a failed lookup of the PID are returned as they are. *)
Theorem probe_by_pidfile_errors (env : Env) (l : nat) (sv : Service) (w : World)
        (d : string) (e : error) :
  heap w !! l = Some sv ->
  PIDFile sv <> "" ->
  IsNotExist (os_stat env (PIDFile sv) (clock w)) = false ->
  (os_readFile env (PIDFile sv) (clock w) = (d, Some e) ->
   exists w', checkIfProcessAlive env (Some l) w = Ok (false, 0, Some e) w') /\
  (forall pid,
     os_readFile env (PIDFile sv) (clock w) = (d, None) ->
     Atoi (TrimSpace d) = Some pid -> pid <> 0 ->
     os_findProcess env pid (clock w) = Some e ->
     exists w', checkIfProcessAlive env (Some l) w = Ok (false, 0, Some e) w').
Proof.
  intros Hh HP Hstat. apply String.eqb_neq in HP. split.
  - intros Hread. unfold checkIfProcessAlive, getProcessPid.
    go_run with Hh. rewrite HP. cbn [negb]. go_run with Hh Hstat Hread.
    eexists. reflexivity.
  - intros pid Hread Hpid Hnz Hfind. apply Z.eqb_neq in Hnz.
    unfold checkIfProcessAlive, getProcessPid, processAliveByPid.
    go_run with Hh. rewrite HP. cbn [negb]. go_run with Hh Hstat Hread Hpid.
    rewrite Hnz. go_run with Hh Hfind. eexists. reflexivity.
Qed.

(** ** CheckAndStopService *)

(** A run of CheckAndStopService on a service whose registry record
    exists, by the command it has to run. *)
Lemma CheckAndStop_run (env : Env) (lp l : nat) (sv r : Service) (w : World) :
  heap w !! lp = Some sv ->
  LoadedServices w !! Name sv = Some l ->
  heap w !! l = Some r ->
  exists (err : option error) (w' : World) (r' : Service),
    CheckAndStopService env (Some lp) w = Ok err w' /\
    registryRecord (Name sv) w' = Some r' /\
    LastAction r' = Stop /\ LastActionAt r' = clock w /\
    match stopCommand sv with
    | Some c =>
        trace w' = trace w ++ [EvRun c false] /\
        err = fst (os_run env c false (clock w)) /\
        State r' = match err with Some _ => Errored | None => Stopped end
    | None =>
        trace w' = trace w /\ clock w' = clock w /\
        if String.eqb (Type_ sv) "simple"
        then State r' = Stopped /\
             err = Some (ErrorString ("process " +:+ Name sv +:+ " doesn't seems to be alive ?"))
        else State r' = Errored /\
             err = Some (ErrorString ("no Shutdown: command defined for " +:+ Name sv
                                      +:+ ", I don't know how to kill it"))
    end.
Proof.
  intros Hp HL Hr.
  unfold CheckAndStopService, ExecShutdown, stopCommand, registryRecord.
  destruct (decide (l = lp)) as [->|Hne].
  - assert (r = sv) by congruence. subst r.
    go_run with Hp HL.
    destruct (String.eqb (Type_ sv) "simple");
      [destruct (RunState_eqb (State sv) Starting || RunState_eqb (State sv) Started)|];
      destruct (negb (String.eqb (Shutdown sv) ""));
      go_run with Hp HL;
      try match goal with
          | |- context [os_run env ?c false ?t] =>
              destruct (os_run env c false t) as [[e|] d]
          end;
      go_run with Hp HL;
      eexists; eexists; eexists; (split; [reflexivity|]); go_red;
      rewrite ?HL, ?lookup_insert_eq; repeat split.
  - pose proof (fun x (m : gmap nat Service) => lookup_insert_ne m l lp x Hne) as Hother.
    go_run with Hp HL Hr Hother.
    destruct (String.eqb (Type_ sv) "simple");
      [destruct (RunState_eqb (State sv) Starting || RunState_eqb (State sv) Started)|];
      destruct (negb (String.eqb (Shutdown sv) ""));
      go_run with Hp HL Hr Hother;
      try match goal with
          | |- context [os_run env ?c false ?t] =>
              destruct (os_run env c false t) as [[e|] d]
          end;
      go_run with Hp HL Hr Hother;
      eexists; eexists; eexists; (split; [reflexivity|]); go_red;
      rewrite ?HL, ?lookup_insert_eq; repeat split.
Qed.

(** X14. CheckAndStopService on a service whose registry record exists
    returns, and whatever the type, the state and the outcome, the record
    is stamped with LastAction = Stop at the time of the call and ends
    Stopped or Errored: Stopped whenever nil is returned, and Errored
    only together with an error. *)
Theorem CheckAndStop_stamps_and_settles
        (env : Env) (lp l : nat) (sv r : Service) (w : World) :
  heap w !! lp = Some sv ->
  LoadedServices w !! Name sv = Some l ->
  heap w !! l = Some r ->
  exists (err : option error) (w' : World) (r' : Service),
    CheckAndStopService env (Some lp) w = Ok err w' /\
    registryRecord (Name sv) w' = Some r' /\
    LastAction r' = Stop /\ LastActionAt r' = clock w /\
    (State r' = Stopped \/ State r' = Errored) /\
    (err = None -> State r' = Stopped) /\
    (State r' = Errored -> err <> None).
Proof.
  intros Hp HL Hr.
  destruct (CheckAndStop_run env lp l sv r w Hp HL Hr)
    as (err & w' & r' & Hrun & Hrec & HA & HT & Hcmd).
  exists err, w', r'. repeat (split; [assumption|]).
  destruct (stopCommand sv) as [c|].
  - destruct Hcmd as (_ & _ & HS). rewrite HS.
    destruct err; (split; [tauto|]); split; try discriminate; reflexivity.
  - destruct Hcmd as (_ & _ & Hcase).
    destruct (String.eqb (Type_ sv) "simple"); destruct Hcase as [HS ->]; rewrite HS;
      (split; [tauto|]); split; try discriminate; reflexivity.
Qed.

(** X15. What CheckAndStopService runs.  A service that is not simple and
    has no Shutdown command, and a simple service that is neither Starting
    nor Started (with or without Shutdown command), get nothing run and no
    time spent, and an error is returned.  Otherwise a service with a
    Shutdown command gets that command run, once, not in a process group of
    its own, and the error of the run is the result. *)
Theorem CheckAndStop_commands
        (env : Env) (lp l : nat) (sv r : Service) (w : World) :
  heap w !! lp = Some sv ->
  LoadedServices w !! Name sv = Some l ->
  heap w !! l = Some r ->
  exists (err : option error) (w' : World),
    CheckAndStopService env (Some lp) w = Ok err w' /\
    (Type_ sv <> "simple" -> Shutdown sv = "" ->
     trace w' = trace w /\ clock w' = clock w /\
     err = Some (ErrorString ("no Shutdown: command defined for " +:+ Name sv
                              +:+ ", I don't know how to kill it"))) /\
    (Type_ sv = "simple" -> State sv <> Starting -> State sv <> Started ->
     trace w' = trace w /\ clock w' = clock w /\
     err = Some (ErrorString ("process " +:+ Name sv +:+ " doesn't seems to be alive ?"))) /\
    (Shutdown sv <> "" ->
     Type_ sv <> "simple" \/ State sv = Starting \/ State sv = Started ->
     trace w' = trace w ++ [EvRun (Shutdown sv) false] /\
     err = fst (os_run env (Shutdown sv) false (clock w))).
Proof.
  intros Hp HL Hr.
  destruct (CheckAndStop_run env lp l sv r w Hp HL Hr)
    as (err & w' & r' & Hrun & _ & _ & _ & Hcmd).
  exists err, w'. split; [exact Hrun|]. unfold stopCommand in Hcmd.
  split; [|split].
  - intros HT HSh. apply String.eqb_neq in HT. rewrite HT, HSh in Hcmd.
    cbn [String.eqb negb] in Hcmd. tauto.
  - intros HT HS1 HS2. apply RunState_eqb_neq in HS1. apply RunState_eqb_neq in HS2.
    rewrite HT, HS1, HS2 in Hcmd. cbn [String.eqb Ascii.eqb Bool.eqb orb] in Hcmd. tauto.
  - intros HSh Hcase. apply String.eqb_neq in HSh. rewrite HSh in Hcmd. cbn [negb] in Hcmd.
    destruct (String.eqb (Type_ sv) "simple") eqn:HT.
    + apply String.eqb_eq in HT.
      destruct Hcase as [Hn|Hrunning]; [contradiction|].
      assert (Hst : RunState_eqb (State sv) Starting || RunState_eqb (State sv) Started = true)
        by (destruct Hrunning as [-> | ->]; reflexivity).
      rewrite Hst in Hcmd. tauto.
    + tauto.
Qed.

(** ** The parser of service files *)

Lemma HasPrefix_app (p : string) :
  forall line, HasPrefix line p = true -> exists rest, line = p +:+ rest.
Proof.
  unfold HasPrefix. induction p as [|c p IH]; intros line H.
  - exists line. reflexivity.
  - destruct line as [|c' line]; [discriminate H|].
    cbn [String.prefix] in H. destruct (ascii_dec c c') as [<-|]; [|discriminate H].
    destruct (IH line H) as (rest & ->). exists rest. reflexivity.
Qed.

Lemma extends_refl (s : Service) : extends s s.
Proof.
  unfold extends. repeat split; try reflexivity; exists []; rewrite app_nil_r; reflexivity.
Qed.

Lemma parseLine_extends (line : string) (s : Service) : extends s (fst (parseLine line s)).
Proof.
  unfold parseLine.
  repeat match goal with
         | |- context [if ?b then _ else _] => destruct b eqn:?
         end;
    try apply extends_refl;
    unfold extends;
    cbn [fst Name AutoStart Provides Needs Description State LastAction LastActionAt
         LastMessage LastKnownPID Type_ PIDFile Startup Shutdown CheckAlive Deleted
         set_Needs set_Provides set_Startup set_Shutdown set_Name set_Description
         set_PIDFile set_Type];
    repeat split; try reflexivity; try (eexists; reflexivity);
    try (exists []; rewrite app_nil_r; reflexivity);
    intros Hset;
    repeat match goal with
           | H : negb _ = false |- _ => apply negb_false_iff in H
           | H : String.eqb _ _ = true |- _ => apply String.eqb_eq in H
           end;
    congruence.
Qed.

Lemma extends_trans (a b c : Service) : extends a b -> extends b c -> extends a c.
Proof.
  unfold extends.
  intros (N1 & D1 & P1 & T1 & S1 & H1 & (n1 & Hn1) & (p1 & Hp1) & A1 & St1 & LA1 & LT1 & LM1 & LP1 & C1 & De1)
         (N2 & D2 & P2 & T2 & S2 & H2 & (n2 & Hn2) & (p2 & Hp2) & A2 & St2 & LA2 & LT2 & LM2 & LP2 & C2 & De2).
  repeat split; try congruence.
  - intros H. rewrite <- (N1 H). apply N2. rewrite (N1 H). exact H.
  - intros H. rewrite <- (D1 H). apply D2. rewrite (D1 H). exact H.
  - intros H. rewrite <- (P1 H). apply P2. rewrite (P1 H). exact H.
  - intros H. rewrite <- (T1 H). apply T2. rewrite (T1 H). exact H.
  - intros H. rewrite <- (S1 H). apply S2. rewrite (S1 H). exact H.
  - intros H. rewrite <- (H1 H). apply H2. rewrite (H1 H). exact H.
  - exists (n1 ++ n2). rewrite Hn2, Hn1, app_assoc. reflexivity.
  - exists (p1 ++ p2). rewrite Hp2, Hp1, app_assoc. reflexivity.
Qed.

Lemma ParseConfig_loop_extends
      (IsCustASCII : string -> bool) (filename : string) (fuel : nat) :
  forall (rd : Reader) (s s' : Service),
    ParseConfig_loop IsCustASCII fuel rd s filename = Some (s', None) -> extends s s'.
Proof.
  induction fuel as [|fuel IH]; intros rd s s' H; [discriminate H|].
  cbn [ParseConfig_loop] in H.
  destruct (ReadString rd "010") as [[ln err] rd'].
  destruct err as [e|].
  - destruct e; try discriminate H.
    destruct (checkSanity IsCustASCII _ filename); [discriminate H|].
    inversion H; subst. apply parseLine_extends.
  - apply (extends_trans s _ s' (parseLine_extends ln s)). apply (IH rd' _ s' H).
Qed.

(** X16. A line never takes back what the lines before it have set: a
    Name, Description, PIDFile, Type, Startup or Shutdown that is set
    stays as it is, Needs and Provides only grow at their end, and no
    line touches AutoStart, CheckAlive, the state, the last action or the
    PID.  The same holds for the lines of a whole file after any point of
    it. *)
Theorem parser_keeps_what_is_set
        (IsCustASCII : string -> bool) (line : string) (s : Service) :
  extends s (fst (parseLine line s)) /\
  forall (fuel : nat) (rd : Reader) (filename : string) (s' : Service),
    ParseConfig_loop IsCustASCII fuel rd s filename = Some (s', None) ->
    extends s s'.
Proof.
  split; [apply parseLine_extends|].
  intros fuel rd filename s' H.
  apply (ParseConfig_loop_extends IsCustASCII filename fuel rd s s' H).
Qed.

Lemma firstInvalid_None (IsCustASCII : string -> bool) (l : list string) :
  firstInvalid IsCustASCII l = None <-> forall x, In x l -> IsCustASCII x = true.
Proof.
  induction l as [|x l IH]; cbn [firstInvalid].
  - split; [intros _ y []|reflexivity].
  - destruct (IsCustASCII x) eqn:Hx; cbn [negb].
    + rewrite IH. split.
      * intros H y [<-|Hin]; [exact Hx|apply H; exact Hin].
      * intros H y Hin. apply H. right. exact Hin.
    + split; [discriminate|]. intros H.
      rewrite (H x (or_introl eq_refl)) in Hx. discriminate Hx.
Qed.

(** X17. checkSanity accepts a service exactly when its Name, every tag
    of Provides and every tag of Needs pass IsCustASCII; no other field
    is looked at.  When it refuses, the error names the first offender:
    the name before the Provides, the Provides before the Needs. *)
Theorem checkSanity_accepts_iff
        (IsCustASCII : string -> bool) (s : Service) (filename : string) :
  (checkSanity IsCustASCII s filename = None <->
   IsCustASCII (Name s) = true /\
   (forall t, In t (Provides s) -> IsCustASCII t = true) /\
   (forall t, In t (Needs s) -> IsCustASCII t = true)) /\
  (IsCustASCII (Name s) = false ->
   checkSanity IsCustASCII s filename =
     Some (ErrorString (filename +:+ " has invalid service name '" +:+ Name s
                        +:+ "', only a-Z0-9_-. allowed"))) /\
  (forall provide,
     IsCustASCII (Name s) = true ->
     firstInvalid IsCustASCII (Provides s) = Some provide ->
     checkSanity IsCustASCII s filename =
       Some (ErrorString (filename +:+ " has invalid provides '" +:+ provide
                          +:+ "', only a-Z0-9_-. allowed"))).
Proof.
  split; [|split].
  - unfold checkSanity. destruct (IsCustASCII (Name s)); cbn [negb].
    + rewrite <- !firstInvalid_None.
      destruct (firstInvalid IsCustASCII (Provides s));
        [split; [discriminate | intros (_ & H & _); discriminate H]|].
      destruct (firstInvalid IsCustASCII (Needs s));
        [split; [discriminate | intros (_ & _ & H); discriminate H]|].
      split; [intros _; repeat split | reflexivity].
    + split; [discriminate | intros (H & _); discriminate H].
  - intros H. unfold checkSanity. rewrite H. reflexivity.
  - intros provide HN HP. unfold checkSanity. rewrite HN, HP. reflexivity.
Qed.

Lemma ParseConfig_loop_result
      (IsCustASCII : string -> bool) (filename : string) (fuel : nat) :
  forall (rd : Reader) (s s' : Service) (err : option error),
    ParseConfig_loop IsCustASCII fuel rd s filename = Some (s', err) ->
    (err <> None -> s' = zeroService) /\
    (err = None -> rd_err rd = EOF /\ checkSanity IsCustASCII s' filename = None) /\
    (rd_err rd <> EOF -> err = Some (rd_err rd)).
Proof.
  induction fuel as [|fuel IH]; intros rd s s' err H; [discriminate H|].
  cbn [ParseConfig_loop] in H. unfold ReadString in H.
  destruct (readUntil "010" (rd_data rd)) as [[line rest]|].
  - apply IH in H. cbn [rd_err] in H. exact H.
  - destruct (rd_err rd) eqn:He;
      try (inversion H; subst; repeat split; try reflexivity; try discriminate;
           intros Hn; exfalso; apply Hn; reflexivity).
    destruct (checkSanity IsCustASCII (fst (parseLine (rd_data rd) s)) filename) eqn:Hs;
      inversion H; subst.
    + repeat split; try reflexivity; try discriminate.
      intros Hn. exfalso. apply Hn. reflexivity.
    + repeat split; try reflexivity; try assumption.
      * intros Hn. exfalso. apply Hn. reflexivity.
      * intros Hn. exfalso. apply Hn. reflexivity.
Qed.

(** X18. ParseConfig returns either a service without error or the zero
    service with an error, never a half-read service.  A reader that ends
    with an error other than EOF gives that error whatever it delivered
    before.  A service returned without error has passed checkSanity: its
    Name and all its Provides and Needs pass IsCustASCII. *)
Theorem ParseConfig_all_or_nothing
        (IsCustASCII : string -> bool) (fuel : nat) (rd : Reader) (filename : string)
        (s : Service) (err : option error) :
  ParseConfig IsCustASCII fuel rd filename = Some (s, err) ->
  (err <> None -> s = zeroService) /\
  (rd_err rd <> EOF -> err = Some (rd_err rd)) /\
  (err = None ->
   rd_err rd = EOF /\
   IsCustASCII (Name s) = true /\
   (forall t, In t (Provides s) -> IsCustASCII t = true) /\
   (forall t, In t (Needs s) -> IsCustASCII t = true)).
Proof.
  intros H. unfold ParseConfig in H.
  destruct (ParseConfig_loop_result IsCustASCII filename fuel rd zeroService s err H)
    as (Hz & Hok & Hrd).
  split; [exact Hz|]. split; [exact Hrd|].
  intros He. destruct (Hok He) as [Heof Hs]. split; [exact Heof|].
  unfold checkSanity in Hs. destruct (IsCustASCII (Name s)); cbn [negb] in Hs; [|discriminate Hs].
  destruct (firstInvalid IsCustASCII (Provides s)) eqn:HP; [discriminate Hs|].
  destruct (firstInvalid IsCustASCII (Needs s)) eqn:HN; [discriminate Hs|].
  split; [reflexivity|]. split; apply firstInvalid_None; assumption.
Qed.


(** X19. A service file sets none of the fields the supervisor works
    with: every service that ParseConfig returns has AutoStart = false and
    no CheckAlive command, is NotStarted with LastAction Unknown, and has
    LastKnownPID 0; there is no directive for any of them. *)
Theorem ParseConfig_leaves_runtime_fields
        (IsCustASCII : string -> bool) (fuel : nat) (rd : Reader) (filename : string)
        (s : Service) (err : option error) :
  ParseConfig IsCustASCII fuel rd filename = Some (s, err) ->
  AutoStart s = false /\ CheckAlive s = "" /\ State s = NotStarted /\
  LastAction s = Unknown /\ LastActionAt s = 0 /\ LastMessage s = "" /\
  LastKnownPID s = 0 /\ Deleted s = false.
Proof.
  intros H. destruct err as [e|].
  - destruct (ParseConfig_loop_result IsCustASCII filename fuel rd zeroService s _ H)
      as (Hz & _). rewrite Hz by discriminate. repeat split.
  - destruct (ParseConfig_loop_extends IsCustASCII filename fuel rd zeroService s H)
      as (_ & _ & _ & _ & _ & _ & _ & _ & H1 & H2 & H3 & H4 & H5 & H6 & H7 & H8).
    repeat split; assumption.
Qed.

Ltac char_cases :=
  repeat match goal with
         | |- context [ascii_dec ?a ?b] =>
             destruct (ascii_dec a b); [try discriminate | try congruence]
         end.

(** X20. The two directives that may come only once: a Startup line for a
    service that has a Startup command, and a Shutdown line for one that
    has a Shutdown command, are errors ("Startup already set", "Shutdown
    already set").  These are the only errors of parseLine, and a line
    that is an error leaves the service as it was. *)
Theorem parseLine_errors (line : string) (s : Service) :
  (HasPrefix line "Startup:" = true -> Startup s <> "" ->
   parseLine line s = (s, Some (ErrorString "Startup already set"))) /\
  (HasPrefix line "Shutdown:" = true -> Shutdown s <> "" ->
   parseLine line s = (s, Some (ErrorString "Shutdown already set"))) /\
  (forall e, snd (parseLine line s) = Some e ->
             fst (parseLine line s) = s /\
             (e = ErrorString "Startup already set" /\ Startup s <> ""
              \/ e = ErrorString "Shutdown already set" /\ Shutdown s <> "")).
Proof.
  split; [|split].
  - intros Hp Hset. destruct (HasPrefix_app _ _ Hp) as (rest & ->).
    apply String.eqb_neq in Hset.
    change ("Startup:" +:+ rest)
      with (String "S" (String "t" (String "a" (String "r" (String "t"
             (String "u" (String "p" (String ":" rest)))))))).
    unfold parseLine, HasPrefix. cbn [String.prefix]. char_cases.
    rewrite prefix_empty, Hset. reflexivity.
  - intros Hp Hset. destruct (HasPrefix_app _ _ Hp) as (rest & ->).
    apply String.eqb_neq in Hset.
    change ("Shutdown:" +:+ rest)
      with (String "S" (String "h" (String "u" (String "t" (String "d"
             (String "o" (String "w" (String "n" (String ":" rest))))))))).
    unfold parseLine, HasPrefix. cbn [String.prefix]. char_cases.
    rewrite prefix_empty, Hset. reflexivity.
  - intros e. unfold parseLine.
    repeat match goal with
           | |- context [if ?b then _ else _] => destruct b eqn:?
           end; cbn [fst snd]; intros H; inversion H; subst;
      (split; [reflexivity|]);
      repeat match goal with
             | H : negb _ = true |- _ => apply negb_true_iff in H
             | H : String.eqb _ _ = false |- _ => apply String.eqb_neq in H
             end; tauto.
Qed.

(** ** The capability index *)

Lemma register_fold (s : Service) (t : ServiceType) (tags : list ServiceType) :
  forall idx : gmap string (list Service),
    default [] (fold_left
                  (fun (idx : gmap string (list Service)) t =>
                     <[t := default [] (idx !! t) ++ [s]]> idx) tags idx !! t)
    = default [] (idx !! t) ++ repeat s (count_occ string_dec tags t).
Proof.
  induction tags as [|t0 tags IH]; intros idx.
  - cbn [fold_left count_occ repeat]. rewrite app_nil_r. reflexivity.
  - cbn [fold_left count_occ]. rewrite IH.
    destruct (string_dec t0 t) as [->|Hne].
    + rewrite lookup_insert_eq. cbn [repeat]. destruct (idx !! t); cbn; rewrite <- ?app_assoc; reflexivity.
    + rewrite lookup_insert_ne by exact Hne. reflexivity.
Qed.

(** X21. The registration of a parsed service in StartupServices appends
    the service to the list of a tag once for every time the tag stands in
    its Provides, and leaves the lists of all other tags alone.  A service
    without Provides is in no list, so StartServices, which goes by these
    lists, starts no goroutine for it. *)
Theorem register_by_provides (s : Service) (idx : gmap string (list Service)) (t : ServiceType) :
  default [] (register s idx !! t)
    = default [] (idx !! t) ++ repeat s (count_occ string_dec (Provides s) t) /\
  (~ In t (Provides s) -> default [] (register s idx !! t) = default [] (idx !! t)) /\
  (Provides s = [] -> register s idx = idx).
Proof.
  split; [apply register_fold|]. split.
  - intros Hn. unfold register. rewrite register_fold.
    rewrite (proj1 (count_occ_not_In string_dec _ _) Hn). apply app_nil_r.
  - intros H. unfold register. rewrite H. reflexivity.
Qed.

(** ** The setup file *)

Lemma setupStep_spec (line : string) (a : list string) (p : bool) :
  exists more,
    fst (setupStep line a p) = a ++ more /\
    (forall x, In x more -> x <> "") /\
    (p = true -> snd (setupStep line a p) = true) /\
    (snd (parseSetupLine line) = true -> snd (setupStep line a p) = true).
Proof.
  unfold setupStep. destruct (parseSetupLine line) as [autologin persist2].
  destruct (String.eqb autologin "") eqn:Ha; cbn [negb fst snd].
  - exists []. rewrite app_nil_r. split; [reflexivity|]. split; [intros x []|].
    destruct persist2; split; intros H; try reflexivity; try exact H; discriminate H.
  - exists [autologin]. split; [reflexivity|]. split.
    + intros x [<-|[]]. apply String.eqb_neq. exact Ha.
    + destruct persist2; split; intros H; try reflexivity; try exact H; discriminate H.
Qed.

Lemma ParseSetupConfig_loop_spec (fuel : nat) :
  forall (rd : Reader) (a : list string) (p : bool)
         (a' : list string) (p' : bool) (err : option error),
    ParseSetupConfig_loop fuel rd a p = Some (a', p', err) ->
    (exists more, a' = a ++ more /\ forall x, In x more -> x <> "") /\
    (p = true -> p' = true) /\
    (err = None <-> rd_err rd = EOF) /\
    (forall e, err = Some e -> e = rd_err rd).
Proof.
  induction fuel as [|fuel IH]; intros rd a p a' p' err H; [discriminate H|].
  cbn [ParseSetupConfig_loop] in H. unfold ReadString in H.
  destruct (readUntil "010" (rd_data rd)) as [[line rest]|].
  - destruct (setupStep_spec line a p) as (more & Ha & Hne & Hp & _).
    destruct (setupStep line a p) as [a1 p1]. cbn [fst snd] in *.
    apply IH in H. cbn [rd_err] in H.
    destruct H as ((more' & Ha' & Hne') & Hp' & Herr & He).
    split; [|split; [tauto|split; assumption]].
    exists (more ++ more'). rewrite Ha', Ha, app_assoc. split; [reflexivity|].
    intros x Hx. apply in_app_or in Hx. destruct Hx; [apply Hne|apply Hne']; assumption.
  - destruct (rd_err rd) eqn:He;
      try (inversion H; subst;
           split; [exists []; rewrite app_nil_r; split; [reflexivity | intros x []]|];
           split; [tauto|]; split; [split; discriminate | intros e' E; inversion E; reflexivity]).
    destruct (setupStep_spec (rd_data rd) a p) as (more & Ha & Hne & Hp & _).
    destruct (setupStep (rd_data rd) a p) as [a1 p1]. cbn [fst snd] in *.
    inversion H; subst.
    split; [exists more; split; [reflexivity|exact Hne]|].
    split; [exact Hp|]. split; [split; reflexivity | intros e' E; discriminate E].
Qed.

Lemma ParseSetupConfig_loop_total (fuel : nat) :
  forall (rd : Reader) (a : list string) (p : bool),
    (String.length (rd_data rd) < fuel)%nat ->
    exists res, ParseSetupConfig_loop fuel rd a p = Some res.
Proof.
  induction fuel as [|fuel IH]; intros rd a p Hlen; [lia|].
  cbn [ParseSetupConfig_loop]. unfold ReadString.
  destruct (readUntil "010" (rd_data rd)) as [[line rest]|] eqn:Hr.
  - destruct (setupStep line a p) as [a1 p1].
    apply IH. cbn [rd_data]. apply readUntil_shorter in Hr. lia.
  - destruct (rd_err rd); try (eexists; reflexivity).
    destruct (setupStep (rd_data rd) a p) as [a1 p1]. eexists. reflexivity.
Qed.

(** X22. ParseSetupConfig returns for every input.  It returns an error
    exactly when the reader ends with an error other than EOF, and then
    that error together with the logins and the persist flag read from
    the whole lines before it.  No login it returns is empty: an
    Autologin line without a name is passed over. *)
Theorem ParseSetupConfig_results
        (fuel : nat) (rd : Reader) (a : list string) (p : bool) (err : option error) :
  (exists res, ParseSetupConfig (S (String.length (rd_data rd))) rd = Some res) /\
  (ParseSetupConfig fuel rd = Some (a, p, err) ->
   (forall x, In x a -> x <> "") /\
   (err = None <-> rd_err rd = EOF) /\
   (forall e, err = Some e -> e = rd_err rd)).
Proof.
  split; [apply ParseSetupConfig_loop_total; lia|].
  intros H. unfold ParseSetupConfig in H.
  destruct (ParseSetupConfig_loop_spec fuel rd [] false a p err H)
    as ((more & Ha & Hne) & _ & Herr & He).
  cbn [app] in Ha. subst a. split; [exact Hne|]. split; assumption.
Qed.

Lemma readUntil_line (delim : ascii) (v post : string) :
  readUntil delim v = None ->
  readUntil delim (v +:+ String delim post) = Some (v +:+ String delim "", post).
Proof.
  induction v as [|c v IH]; intros H.
  - change ("" +:+ String delim post) with (String delim post).
    cbn [readUntil]. rewrite Ascii.eqb_refl. reflexivity.
  - change (String c v +:+ String delim post) with (String c (v +:+ String delim post)).
    cbn [readUntil] in *. destruct (Ascii.eqb c delim); [discriminate H|].
    destruct (readUntil delim v) as [[? ?]|]; [discriminate H|].
    rewrite IH by reflexivity. reflexivity.
Qed.

Lemma TrimPrefix_app (p rest : string) : TrimPrefix (p +:+ rest) p = rest.
Proof.
  unfold TrimPrefix, HasPrefix.
  assert (Hp : String.prefix p (p +:+ rest) = true).
  { induction p as [|c p IH]; [apply prefix_empty|].
    change (String c p +:+ rest) with (String c (p +:+ rest)). cbn [String.prefix].
    destruct (ascii_dec c c); [exact IH|congruence]. }
  rewrite Hp. clear Hp.
  induction p as [|c p IH].
  - change ("" +:+ rest) with rest. cbn [String.length].
    rewrite Nat.sub_0_r. apply substring_all.
  - change (String c p +:+ rest) with (String c (p +:+ rest)).
    cbn [String.length substring Nat.sub]. exact IH.
Qed.

Lemma ParseSetupConfig_loop_skips (rest : string) (e : error)
      (res : list string * bool * option error) (fuel : nat) :
  forall (pre : string) (a : list string) (p : bool),
    pre = "" \/ (exists q, pre = q +:+ nl) ->
    ParseSetupConfig_loop fuel (mkReader (pre +:+ rest) e) a p = Some res ->
    exists fuel' a1 p1,
      ParseSetupConfig_loop fuel' (mkReader rest e) a1 p1 = Some res.
Proof.
  induction fuel as [|fuel IH]; intros pre a p Hpre H; [discriminate H|].
  destruct Hpre as [->|[q ->]].
  - exists (S fuel), a, p. exact H.
  - cbn [ParseSetupConfig_loop] in H. unfold ReadString in H. cbn [rd_data rd_err] in H.
    destruct (readUntil_whole_lines q rest) as (line & pre1 & Hr & Hp).
    rewrite append_assoc in H. rewrite Hr in H.
    destruct (setupStep line a p) as [a1 p1].
    apply (IH pre1 a1 p1 Hp H).
Qed.

(** X23. A line [Persist: true] anywhere in the setup file turns persist
    on for good: whatever comes after it (a later [Persist: false], an
    error of the reader), the persist flag that ParseSetupConfig returns
    is true. *)
Theorem Persist_true_sticks
        (fuel : nat) (pre v post : string) (e : error)
        (a : list string) (p : bool) (err : option error) :
  pre = "" \/ (exists q, pre = q +:+ nl) ->
  readUntil "010" v = None ->
  TrimSpace (v +:+ nl) = "true" ->
  ParseSetupConfig fuel (mkReader (pre +:+ "Persist:" +:+ v +:+ nl +:+ post) e)
    = Some (a, p, err) ->
  p = true.
Proof.
  intros Hpre Hv Htrue H. unfold ParseSetupConfig in H.
  destruct (ParseSetupConfig_loop_skips _ e _ fuel pre [] false Hpre H)
    as (fuel' & a1 & p1 & H').
  destruct fuel' as [|fuel']; [discriminate H'|].
  cbn [ParseSetupConfig_loop] in H'. unfold ReadString in H'. cbn [rd_data rd_err] in H'.
  assert (Hread : readUntil "010" ("Persist:" +:+ v +:+ nl +:+ post)
                  = Some ("Persist:" +:+ v +:+ nl, post)).
  { change ("Persist:" +:+ v +:+ nl +:+ post)
      with (String "P" (String "e" (String "r" (String "s" (String "i" (String "s"
             (String "t" (String ":" (v +:+ String "010" post))))))))).
    cbn [readUntil Ascii.eqb Bool.eqb].
    rewrite (readUntil_line "010" v post Hv). reflexivity. }
  rewrite Hread in H'.
  destruct (setupStep_spec ("Persist:" +:+ v +:+ nl) a1 p1) as (_ & _ & _ & _ & Hset).
  assert (Hline : snd (parseSetupLine ("Persist:" +:+ v +:+ nl)) = true).
  { unfold parseSetupLine. rewrite TrimPrefix_app, Htrue.
    change ("Persist:" +:+ v +:+ nl)
      with (String "P" (String "e" (String "r" (String "s" (String "i" (String "s"
             (String "t" (String ":" (v +:+ nl))))))))).
    unfold HasPrefix. cbn [String.prefix]. char_cases. rewrite prefix_empty. reflexivity. }
  specialize (Hset Hline).
  destruct (setupStep ("Persist:" +:+ v +:+ nl) a1 p1) as [a2 p2]. cbn [snd] in Hset. subst p2.
  destruct (ParseSetupConfig_loop_spec fuel' _ a2 true a p err H') as (_ & Hp & _).
  apply Hp. reflexivity.
Qed.

(** ** The PID file, written and read *)

Lemma asciiSpace_digit (a : N) : isDigit a -> asciiSpace a = false.
Proof.
  unfold isDigit, asciiSpace. intros H.
  destruct (N.leb_spec 9 a), (N.leb_spec a 13), (N.eqb_spec a 32); cbn; try reflexivity; lia.
Qed.

Lemma dropSpaceRune_digit (a : N) (r : list N) : isDigit a -> dropSpaceRune (a :: r) = None.
Proof.
  intros H. pose proof (asciiSpace_digit a H) as Hs. unfold isDigit in H.
  unfold dropSpaceRune. rewrite Hs.
  assert (H194 : (a =? 194)%N = false) by (apply N.eqb_neq; lia).
  assert (H225 : (a =? 225)%N = false) by (apply N.eqb_neq; lia).
  assert (H226 : (a =? 226)%N = false) by (apply N.eqb_neq; lia).
  assert (H227 : (a =? 227)%N = false) by (apply N.eqb_neq; lia).
  destruct r as [|b [|c r]]; unfold space2, space3; rewrite ?H194, ?H225, ?H226, ?H227;
    reflexivity.
Qed.

Lemma dropLastSpaceRune_digit (a : N) (r : list N) :
  isDigit a -> dropLastSpaceRune (a :: r) = None.
Proof.
  intros H. pose proof (asciiSpace_digit a H) as Hs. unfold isDigit in H.
  unfold dropLastSpaceRune. rewrite Hs.
  assert (H1 : (a =? 133)%N = false) by (apply N.eqb_neq; lia).
  assert (H2 : (a =? 160)%N = false) by (apply N.eqb_neq; lia).
  assert (H3 : (a =? 128)%N = false) by (apply N.eqb_neq; lia).
  assert (H4 : (128 <=? a)%N = false) by (apply N.leb_gt; lia).
  assert (H5 : (a =? 168)%N = false) by (apply N.eqb_neq; lia).
  assert (H6 : (a =? 169)%N = false) by (apply N.eqb_neq; lia).
  assert (H7 : (a =? 175)%N = false) by (apply N.eqb_neq; lia).
  assert (H8 : (a =? 159)%N = false) by (apply N.eqb_neq; lia).
  destruct r as [|b [|c r]]; unfold space2, space3;
    rewrite ?H1, ?H2, ?H3, ?H4, ?H5, ?H6, ?H7, ?H8; cbn [orb andb];
    rewrite ?andb_false_r; reflexivity.
Qed.

Lemma bytes_digits (d : Decimal.uint) : Forall isDigit (bytes (NilEmpty.string_of_uint d)).
Proof.
  unfold bytes. induction d; cbn [NilEmpty.string_of_uint list_ascii_of_string map];
    constructor; try exact IHd; unfold isDigit; cbn; lia.
Qed.

Lemma bytes_app (a b : string) : bytes (a +:+ b) = bytes a ++ bytes b.
Proof.
  unfold bytes. induction a as [|c a IH]; [reflexivity|].
  change (String c a +:+ b) with (String c (a +:+ b)).
  cbn [list_ascii_of_string map app]. rewrite IH. reflexivity.
Qed.

Lemma unbytes_bytes (s : string) : unbytes (bytes s) = s.
Proof.
  unfold unbytes, bytes. rewrite map_map.
  rewrite (map_ext _ (fun c => c) ascii_N_embedding), map_id.
  apply string_of_list_ascii_of_string.
Qed.

Lemma bytes_length (s : string) : length (bytes s) = String.length s.
Proof.
  unfold bytes. rewrite length_map. induction s as [|c s IH]; [reflexivity|].
  cbn [list_ascii_of_string length String.length]. rewrite IH. reflexivity.
Qed.

(** White space is trimmed off the digits up to them and no further. *)
Lemma TrimSpace_digits_nl (ds : string) :
  ds <> "" ->
  Forall isDigit (bytes ds) ->
  TrimSpace (ds +:+ nl) = ds.
Proof.
  intros Hne Hd. unfold TrimSpace. rewrite bytes_app.
  change (bytes nl) with [10%N].
  destruct (bytes ds) as [|a r] eqn:Hb.
  { exfalso. apply Hne. rewrite <- (unbytes_bytes ds), Hb. reflexivity. }
  assert (Hleft : forall n, trimWith dropSpaceRune n ((a :: r) ++ [10%N]) = (a :: r) ++ [10%N]).
  { intros [|n]; [reflexivity|]. cbn [trimWith app].
    rewrite dropSpaceRune_digit; [reflexivity|]. inversion Hd; assumption. }
  rewrite Hleft, rev_app_distr. cbn [rev app].
  cbn [length trimWith dropLastSpaceRune].
  change (asciiSpace 10) with true. cbn iota.
  assert (Hrev : Forall isDigit (rev r ++ [a])).
  { change (rev r ++ [a]) with (rev (a :: r)). apply Forall_rev. exact Hd. }
  assert (Hright : forall n l, l <> [] -> Forall isDigit l -> trimWith dropLastSpaceRune n l = l).
  { intros [|n] [|x l] Hl HF; try reflexivity. cbn [trimWith].
    rewrite dropLastSpaceRune_digit; [reflexivity|]. inversion HF; assumption. }
  rewrite Hright; [|destruct (rev r); discriminate|exact Hrev].
  change (rev r ++ [a]) with (rev (a :: r)). rewrite rev_involutive, <- Hb.
  apply unbytes_bytes.
Qed.

Lemma parseDigits_acc (d : Decimal.uint) :
  forall acc : positive,
    parseDigits (NilEmpty.string_of_uint d) (Z.pos acc) = Some (Z.pos (Pos.of_uint_acc d acc)).
Proof.
  induction d; intros acc;
    cbn [NilEmpty.string_of_uint parseDigits Pos.of_uint_acc]; try reflexivity;
    unfold digit; cbn [N_of_ascii Z.of_N]; cbn -[Z.mul Z.add parseDigits Pos.of_uint_acc];
    rewrite <- IHd; f_equal; lia.
Qed.

Lemma parseDigits_uint (d : Decimal.uint) :
  parseDigits (NilEmpty.string_of_uint d) 0 = Some (Z.of_N (Pos.of_uint d)).
Proof.
  induction d; cbn [NilEmpty.string_of_uint parseDigits Pos.of_uint]; try reflexivity;
    unfold digit; cbn -[parseDigits Pos.of_uint Pos.of_uint_acc];
    try exact IHd; apply parseDigits_acc.
Qed.

(** A PID in the range of int, printed in decimal and followed by a line
    feed, is read back by the trimming and Atoi. *)
Lemma Atoi_itoa (pid : Z) :
  0 <= pid < 2 ^ 63 -> Atoi (TrimSpace (itoa pid +:+ nl)) = Some pid.
Proof.
  intros Hr. destruct pid as [|p|p]; [reflexivity| |lia].
  unfold itoa. cbn [Z.to_int NilEmpty.string_of_int].
  pose proof (Unsigned.to_uint_nonnil p) as Hnn.
  pose proof (Unsigned.of_to p) as Hof.
  pose proof (parseDigits_uint (Pos.to_uint p)) as Hparse. rewrite Hof in Hparse.
  cbn [Z.of_N] in Hparse.
  rewrite TrimSpace_digits_nl; [| |apply bytes_digits].
  2:{ destruct (Pos.to_uint p); [congruence|discriminate ..]. }
  pose proof (bytes_digits (Pos.to_uint p)) as Hd.
  destruct (NilEmpty.string_of_uint (Pos.to_uint p)) as [|c r] eqn:Hs.
  { destruct (Pos.to_uint p); [congruence|discriminate ..]. }
  unfold Atoi.
  assert (Hc : (48 <= N_of_ascii c <= 57)%N) by (inversion Hd; assumption).
  assert (Hm : Ascii.eqb c "-" = false).
  { apply Ascii.eqb_neq. intros ->. cbn in Hc. lia. }
  assert (Hp : Ascii.eqb c "+" = false).
  { apply Ascii.eqb_neq. intros ->. cbn in Hc. lia. }
  rewrite Hm, Hp. cbn [orb]. rewrite Hparse.
  assert (H1 : (- 2 ^ 63 <=? Z.pos p) = true) by (apply Z.leb_le; lia).
  assert (H2 : (Z.pos p <=? 2 ^ 63 - 1) = true) by (apply Z.leb_le; lia).
  rewrite H1, H2. reflexivity.
Qed.

(** X24. The PID file, written and read: when the file of a service holds
    a PID between 1 and 2^63 - 1 printed in decimal and followed by a line
    feed, getProcessPid returns that PID without error, and the probe
    reports the service alive with that PID when the lookup of the PID
    gives no error. *)
Theorem pidfile_round_trip (env : Env) (l : nat) (sv : Service) (w : World) (pid : Z) :
  heap w !! l = Some sv ->
  PIDFile sv <> "" ->
  0 < pid < 2 ^ 63 ->
  os_readFile env (PIDFile sv) (clock w) = (itoa pid +:+ nl, None) ->
  (exists w', getProcessPid env (Some l) w = Ok (pid, None) w') /\
  (IsNotExist (os_stat env (PIDFile sv) (clock w)) = false ->
   os_findProcess env pid (clock w) = None ->
   exists w', checkIfProcessAlive env (Some l) w = Ok (true, pid, None) w').
Proof.
  intros Hh HP Hr Hread.
  assert (Hpid : Atoi (TrimSpace (itoa pid +:+ nl)) = Some pid) by (apply Atoi_itoa; lia).
  apply String.eqb_neq in HP. split.
  - unfold getProcessPid. go_run with Hh Hread Hpid. eexists. reflexivity.
  - intros Hstat Hfind.
    assert (Hnz : (pid =? 0) = false) by (apply Z.eqb_neq; lia).
    unfold checkIfProcessAlive, getProcessPid, processAliveByPid.
    go_run with Hh. rewrite HP. cbn [negb]. go_run with Hh Hstat Hread Hpid.
    rewrite Hnz. go_run with Hh Hfind. eexists. reflexivity.
Qed.

(** * The further properties at concrete inputs *)

(** db, which needs net, with net marked. *)
Lemma NeedsSatisfied_iff_witness :
  Service_NeedsSatisfied Examples.db {["net" := true]} = true /\
  Service_NeedsSatisfied Examples.web ∅ = true.
Proof.
  split.
  - apply (proj1 (NeedsSatisfied_iff Examples.db {["net" := true]})).
    intros st [<-|[]]. reflexivity.
  - apply (proj2 (NeedsSatisfied_iff Examples.web ∅)). reflexivity.
Defined.

(** The marking of net and dns satisfies db. *)
Lemma markProvides_satisfies_witness :
  exists w',
    markProvides ["net"; "dns"] (Examples.world Examples.db) = Ok tt w' /\
    Service_NeedsSatisfied Examples.db (startedTypes w') = true.
Proof.
  destruct (markProvides_satisfies Examples.db ["net"; "dns"] (Examples.world Examples.db))
    as (w' & Hrun & Hsat & _).
  - intros st [<-|[]]. left. left. reflexivity.
  - exists w'. split; assumption.
Defined.

(** web has no Needs. *)
Lemma wait_satisfied_at_once_witness :
  waitNeeds Examples.quiet 60 (Some 1%nat) false 0 (Examples.world Examples.web)
    = Ok (true, 1%nat) (polled 1 (Examples.world Examples.web)) /\
  clock (polled 1 (Examples.world Examples.web)) = 2.
Proof.
  destruct (wait_satisfied_at_once Examples.quiet 1 Examples.web (Examples.world Examples.web))
    as (Hrun & Hclock & _).
  - reflexivity.
  - intros st [].
  - split; [exact Hrun | exact Hclock].
Defined.

(** db after web, when the Startup command of web fails. *)
Lemma dependent_after_provider_witness :
  exists w1,
    launcher Examples.failing (Some 1%nat) Cases.two = Ok tt w1 /\
    waitNeeds Examples.failing 60 (Some 2%nat) false 0 w1 = Ok (true, 1%nat) (polled 1 w1).
Proof.
  destruct (dependent_after_provider Examples.failing 1 2 Examples.web Examples.db Cases.two)
    as (w1 & Hrun & _ & Hwait).
  - reflexivity.
  - reflexivity.
  - reflexivity.
  - discriminate.
  - intros st [<-|[]]. left. reflexivity.
  - exists w1. split; assumption.
Defined.

(** The launcher of a web that is not AutoStart. *)
Lemma launcher_marks_without_start_witness :
  exists w',
    launcher Examples.quiet (Some 1%nat) (Examples.world Cases.manual) = Ok tt w' /\
    heap w' = heap (Examples.world Cases.manual) /\
    startedTypes w' !! "net" = Some true.
Proof.
  destruct (launcher_marks_without_start Examples.quiet 1 Cases.manual
              (Examples.world Cases.manual))
    as (w' & n & Hrun & _ & Hheap & _ & _ & _ & Hmark).
  - reflexivity.
  - right. left. reflexivity.
  - exists w'. split; [exact Hrun|]. split; [exact Hheap|].
    apply Hmark. left. reflexivity.
Defined.

(** Start of db, the command running for a second without error. *)
Lemma Start_ends_Started_or_Errored_witness :
  exists w' r',
    Service_Start Examples.quiet Examples.db (Examples.world Examples.db) = Ok None w' /\
    registryRecord "db" w' = Some r' /\ State r' = Started /\ LastActionAt r' = 1.
Proof.
  destruct (Start_ends_Started_or_Errored Examples.quiet Examples.db
              (Examples.world Examples.db) 1 Examples.db None 1)
    as (res & w' & r' & Hrun & Hrec & Hout & Hnil & _ & Hat & _);
    [reflexivity | reflexivity | reflexivity | reflexivity |].
  rewrite (Hnil eq_refl) in Hrun, Hout.
  exists w', r'. split; [exact Hrun|]. split; [exact Hrec|]. split; [|exact Hat].
  destruct Hout as [[_ HS]|(_ & Hne & _)]; [exact HS | exfalso; apply Hne; reflexivity].
Defined.

(** Start of db twice, the command failing. *)
Lemma Start_not_repeatable_witness :
  exists res w' r',
    Service_Start Examples.failing Examples.db (Examples.world Examples.db) = Ok res w' /\
    registryRecord "db" w' = Some r' /\
    exists msg, Service_Start Examples.quiet r' w' = Ok (Some (ErrorString msg)) w'.
Proof.
  destruct (Start_not_repeatable Examples.failing Examples.db (Examples.world Examples.db)
              1 Examples.db)
    as (res & w' & r' & Hrun & Hrec & Hagain);
    [reflexivity | reflexivity | reflexivity |].
  exists res, w', r'. split; [exact Hrun|]. split; [exact Hrec|].
  eexists. apply Hagain.
Defined.

(** db, not in the registry. *)
Lemma unregistered_name_panics_witness :
  Service_Start Examples.quiet Examples.db (Cases.orphaned Examples.db) = Panic /\
  Service_StartSimple Examples.quiet Examples.db (Cases.orphaned Examples.db) = Panic /\
  CheckAndStopService Examples.quiet (Some 1%nat) (Cases.orphaned Examples.db) = Panic.
Proof.
  destruct (unregistered_name_panics Examples.quiet Examples.db (Cases.orphaned Examples.db))
    as (Hstart & Hsimple & Hstop & _); [reflexivity|].
  split; [apply Hstart; reflexivity|]. split; [exact Hsimple|].
  apply Hstop. reflexivity.
Defined.

(** tail, Started, and tail, Stopped. *)
Lemma CheckAndStart_simple_by_state_witness :
  CheckAndStartService Examples.quiet (Some 1%nat) (Examples.world Examples.tail)
    = Ok (Some (ErrorString "process tail already running")) (Examples.world Examples.tail) /\
  CheckAndStartService Examples.quiet (Some 1%nat)
    (Examples.world (set_State Stopped Examples.tail))
    = Ok None (with_spawned [set_State Stopped Examples.tail]
                 (Examples.world (set_State Stopped Examples.tail))).
Proof.
  split.
  - apply (CheckAndStart_simple_by_state Examples.quiet 1 Examples.tail
             (Examples.world Examples.tail)); reflexivity.
  - apply (CheckAndStart_simple_by_state Examples.quiet 1 (set_State Stopped Examples.tail)
             (Examples.world (set_State Stopped Examples.tail)));
      try reflexivity. discriminate.
Defined.

(** db is forking and has neither PIDFile nor CheckAlive. *)
Lemma CheckAndStart_indeterminate_witness :
  CheckAndStartService Examples.quiet (Some 1%nat) (Examples.world Examples.db)
    = Ok (Some (ErrorString "cannot determine process state")) (Examples.world Examples.db).
Proof.
  apply (CheckAndStart_indeterminate Examples.quiet 1 Examples.db (Examples.world Examples.db));
    try reflexivity. discriminate.
Defined.

(** cron, Started, without its PID file; and cron, NotStarted, whose
    Startup command fails. *)
Lemma CheckAndStart_drops_Start_error_witness :
  CheckAndStartService Cases.nofile (Some 1%nat) (Examples.world Examples.cron)
    = Ok None (Cases.statted_cron Examples.cron) /\
  exists w',
    CheckAndStartService Cases.nofile (Some 1%nat)
      (Examples.world (set_State NotStarted Examples.cron)) = Ok None w' /\
    State <$> registryRecord "cron" w' = Some Errored.
Proof.
  split.
  - apply (CheckAndStart_drops_Start_error Cases.nofile 1 Examples.cron
             (Examples.world Examples.cron) (Cases.statted_cron Examples.cron) 0
             EOF 0); try reflexivity; discriminate.
  - apply (CheckAndStart_drops_Start_error Cases.nofile 1 (set_State NotStarted Examples.cron)
             (Examples.world (set_State NotStarted Examples.cron))
             (Cases.statted_cron (set_State NotStarted Examples.cron)) 0
             (ExitError "exit status 1") 1); try reflexivity; discriminate.
Defined.

(** The probe of cron by its PID file holding 999. *)
Lemma probe_only_looks_witness :
  heap Examples.probed_cron = heap (Examples.world Examples.cron) /\
  clock Examples.probed_cron = clock (Examples.world Examples.cron).
Proof.
  destruct (probe_only_looks (Examples.pidfile "999") 1 Examples.cron
              (Examples.world Examples.cron) Examples.probed_cron (true, 999, None))
    as (Hheap & _ & _ & _ & _ & Hpid); [reflexivity | reflexivity |].
  split; [exact Hheap|]. apply Hpid. discriminate.
Defined.

(** The PID file of cron, there and unreadable. *)
Lemma probe_by_pidfile_errors_witness :
  exists w',
    checkIfProcessAlive Cases.unreadable (Some 1%nat) (Examples.world Examples.cron)
      = Ok (false, 0, Some (OSError "permission denied" false)) w'.
Proof.
  destruct (probe_by_pidfile_errors Cases.unreadable 1 Examples.cron
              (Examples.world Examples.cron) "" (OSError "permission denied" false))
    as [Hread _]; [reflexivity | discriminate | reflexivity |].
  apply Hread. reflexivity.
Defined.

(** The stop of tail by pkill, which exits with 0. *)
Lemma CheckAndStop_stamps_and_settles_witness :
  exists err w' r',
    CheckAndStopService Examples.quiet (Some 1%nat) (Examples.world Examples.tail) = Ok err w' /\
    registryRecord "tail" w' = Some r' /\
    LastAction r' = Stop /\ (State r' = Stopped \/ State r' = Errored).
Proof.
  destruct (CheckAndStop_stamps_and_settles Examples.quiet 1 1 Examples.tail Examples.tail
              (Examples.world Examples.tail))
    as (err & w' & r' & Hrun & Hrec & HA & _ & HS & _);
    [reflexivity | reflexivity | reflexivity |].
  exists err, w', r'. repeat split; assumption.
Defined.

(** The stop of db, which is forking and has no Shutdown command. *)
Lemma CheckAndStop_commands_witness :
  exists err w',
    CheckAndStopService Examples.quiet (Some 1%nat) (Examples.world Examples.db) = Ok err w' /\
    trace w' = [] /\
    err = Some (ErrorString "no Shutdown: command defined for db, I don't know how to kill it").
Proof.
  destruct (CheckAndStop_commands Examples.quiet 1 1 Examples.db Examples.db
              (Examples.world Examples.db))
    as (err & w' & Hrun & Hnone & _);
    [reflexivity | reflexivity | reflexivity |].
  destruct Hnone as (Htr & _ & Herr); [discriminate | reflexivity |].
  exists err, w'. split; [exact Hrun|]. split; [exact Htr | exact Herr].
Defined.

(** A second Name line. *)
Lemma parser_keeps_what_is_set_witness :
  Name (fst (parseLine "Name: other" (set_Name "web" zeroService))) = "web".
Proof.
  destruct (parser_keeps_what_is_set (fun _ => true) "Name: other" (set_Name "web" zeroService))
    as [(Hname & _) _].
  apply Hname. discriminate.
Defined.

(** A service without a name, the empty string not passing. *)
Lemma checkSanity_accepts_iff_witness :
  checkSanity (fun x => negb (String.eqb x "")) zeroService "a.service"
    = Some (ErrorString "a.service has invalid service name '', only a-Z0-9_-. allowed").
Proof.
  destruct (checkSanity_accepts_iff (fun x => negb (String.eqb x "")) zeroService "a.service")
    as (_ & Hname & _).
  apply Hname. reflexivity.
Defined.

(** A service file whose reader breaks at its end. *)
Lemma ParseConfig_all_or_nothing_witness :
  ParseConfig (fun _ => true) 100
    (mkReader Cases.service_file (OSError "input/output error" false)) "web.service"
    = Some (zeroService, Some (OSError "input/output error" false)) /\
  zeroService = zeroService.
Proof.
  split; [reflexivity|].
  destruct (ParseConfig_all_or_nothing (fun _ => true) 100
              (mkReader Cases.service_file (OSError "input/output error" false)) "web.service"
              zeroService (Some (OSError "input/output error" false)))
    as (Hzero & _); [reflexivity|].
  apply Hzero. discriminate.
Defined.

(** The service file, read to its end. *)
Lemma ParseConfig_leaves_runtime_fields_witness :
  exists s,
    ParseConfig (fun _ => true) 100 (mkReader Cases.service_file EOF) "web.service"
      = Some (s, None) /\
    Name s = "web" /\ Startup s = "run web" /\ Provides s = ["net"; "dns"] /\
    AutoStart s = false /\ CheckAlive s = "".
Proof.
  eexists. split; [reflexivity|].
  split; [reflexivity|]. split; [reflexivity|]. split; [reflexivity|].
  destruct (ParseConfig_leaves_runtime_fields (fun _ => true) 100
              (mkReader Cases.service_file EOF) "web.service" _ None eq_refl)
    as (Hauto & Hcheck & _).
  split; [exact Hauto | exact Hcheck].
Defined.

(** A second Startup line. *)
Lemma parseLine_errors_witness :
  parseLine "Startup: run other" (set_Startup "run web" zeroService)
    = (set_Startup "run web" zeroService, Some (ErrorString "Startup already set")).
Proof.
  destruct (parseLine_errors "Startup: run other" (set_Startup "run web" zeroService))
    as (Hstartup & _).
  apply Hstartup; [reflexivity | discriminate].
Defined.

(** web in the index of an empty StartupServices. *)
Lemma register_by_provides_witness :
  default [] (register Examples.web ∅ !! "net") = [Examples.web] /\
  default [] (register Examples.web ∅ !! "sql") = [].
Proof.
  destruct (register_by_provides Examples.web ∅ "net") as (Hnet & _).
  destruct (register_by_provides Examples.web ∅ "sql") as (_ & Hsql & _).
  split; [exact Hnet|].
  apply Hsql. intros [H|[H|[]]]; discriminate H.
Defined.

(** The setup file, read to its end. *)
Lemma ParseSetupConfig_results_witness :
  ParseSetupConfig 100 (mkReader Cases.setup_file EOF) = Some (["root"], true, None) /\
  forall x, In x ["root"] -> x <> "".
Proof.
  split; [reflexivity|].
  destruct (ParseSetupConfig_results 100 (mkReader Cases.setup_file EOF) ["root"] true None)
    as (_ & Hres).
  destruct (Hres eq_refl) as (Hne & _). exact Hne.
Defined.

(** The setup file: Persist: true, then Persist: false. *)
Lemma Persist_true_sticks_witness :
  ParseSetupConfig 100 (mkReader Cases.setup_file EOF) = Some (["root"], true, None) /\
  true = true.
Proof.
  split; [reflexivity|].
  apply (Persist_true_sticks 100 ("Autologin: root" +:+ nl) " true"
           ("Autologin:" +:+ nl +:+ "Persist: false" +:+ nl) EOF ["root"] true None).
  - right. exists "Autologin: root". reflexivity.
  - reflexivity.
  - reflexivity.
  - reflexivity.
Defined.

(** The PID 4242 in the file of cron. *)
Lemma pidfile_round_trip_witness :
  exists w',
    checkIfProcessAlive (Examples.pidfile ("4242" +:+ nl)) (Some 1%nat)
      (Examples.world Examples.cron) = Ok (true, 4242, None) w'.
Proof.
  destruct (pidfile_round_trip (Examples.pidfile ("4242" +:+ nl)) 1 Examples.cron
              (Examples.world Examples.cron) 4242) as (_ & Hprobe);
    [reflexivity | discriminate | lia | reflexivity |].
  apply Hprobe; reflexivity.
Defined.

(** StartSimple of tail, the process exiting after 10 seconds with 0. *)
Lemma StartSimple_runs_to_Stopped_witness :
  exists w' r',
    Service_StartSimple Examples.quiet Examples.tail (Examples.world Examples.tail) = Ok tt w' /\
    registryRecord "tail" w' = Some r' /\
    State r' = Stopped /\ LastAction r' = Stop /\ LastActionAt r' = 10.
Proof.
  destruct (StartSimple_runs_to_Stopped Examples.quiet Examples.tail
              (Examples.world Examples.tail) 1 Examples.tail 4242 10)
    as (w' & r' & Hrun & Hrec & _ & HS & _ & HA & HT & _);
    [reflexivity | reflexivity | reflexivity | reflexivity |].
  exists w', r'. repeat split; assumption.
Defined.

(** StartSimple of tail when no process can be launched. *)
Lemma StartSimple_launch_fails_witness :
  exists w' r',
    Service_StartSimple Cases.nolaunch Examples.tail (Examples.world Examples.tail) = Ok tt w' /\
    registryRecord "tail" w' = Some r' /\
    State r' = Errored /\ LastMessage r' = "fork: out of memory".
Proof.
  destruct (StartSimple_launch_fails Cases.nolaunch Examples.tail (Examples.world Examples.tail)
              1 Examples.tail 0 (OSError "fork: out of memory" false))
    as (w' & r' & Hrun & Hrec & _ & _ & HS & _ & HM & _);
    [reflexivity | reflexivity | reflexivity |].
  exists w', r'. repeat split; assumption.
Defined.

